(** * AdGuard Browser Extension: filtering-log request details and tab icon

  A shallow embedding of

  - [getRulesData], [getRuleFilterName] and [renderControlButtons] of
    [Extension/src/pages/filtering-log/components/RequestWizard/RequestInfo/RequestInfo.tsx];
  - [IconsApi.updateTabIcon] of the background icons API.

  JavaScript values are modelled as the TypeScript types declare them:
  optional fields are [option]s, arrays are lists, numbers that hold
  identifiers and counters are [Z], strings are [string].  A condition
  [if (x)] is the JavaScript truthiness of [x]. *)

From Stdlib Require Import ZArith List String Ascii Bool Lia.
From Stdlib Require Import DecimalString DecimalPos DecimalZ.
Import ListNotations.

Local Open Scope string_scope.
Local Open Scope Z_scope.

(** ** JavaScript truthiness *)

Module Js.

(** [Boolean(s)] of a string: every string but the empty one. *)
Definition truthyString (s : string) : bool :=
  match s with
  | EmptyString => false
  | String _ _ => true
  end.

(** [Boolean(x)] of [x?: string]. *)
Definition truthyOptString (o : option string) : bool :=
  match o with
  | Some s => truthyString s
  | None => false
  end.

(** [Boolean(x)] of [x?: boolean]. *)
Definition truthyOptBool (o : option bool) : bool :=
  match o with
  | Some b => b
  | None => false
  end.

(** [Boolean(x)] of an optional object or array: objects and arrays,
    the empty array too, are truthy. *)
Definition truthyOptObject {A : Type} (o : option A) : bool :=
  match o with
  | Some _ => true
  | None => false
  end.

End Js.

(** ** Data of the filtering log *)

(** Metadata of a filter: its identifier and its display name. *)
Module FilterMetadata.
Record t : Type := Build {
  filterId : Z;
  name : string;
}.
End FilterMetadata.

(** [AddedRuleState] of the wizard store: the rule the user has just added,
  if any. *)
Module AddedRuleState.
Inductive t : Type :=
| None
| Block
| Unblock.
End AddedRuleState.

(** [ContentType] of the filtering engine, imported as [RequestType]: the
    types the request details name, and [Other] for every other type. *)
Inductive RequestType : Type :=
| Document
| Subdocument
| Script
| Stylesheet
| Image
| Other.

Definition RequestType_eqb (a b : RequestType) : bool :=
  match a, b with
  | Document, Document
  | Subdocument, Subdocument
  | Script, Script
  | Stylesheet, Stylesheet
  | Image, Image
  | Other, Other => true
  | _, _ => false
  end.

(** [StatusMode] of the filtering-log status.  The request details name
    [BLOCKED] and [ALLOWED]; the other members stand for the remaining
    modes, which they only tell apart from [BLOCKED]. *)
Inductive StatusMode : Type :=
| REGULAR
| MODIFIED
| BLOCKED
| ALLOWED
| ALLOWED_STEALTH.

Definition StatusMode_eqb (a b : StatusMode) : bool :=
  match a, b with
  | REGULAR, REGULAR
  | MODIFIED, MODIFIED
  | BLOCKED, BLOCKED
  | ALLOWED, ALLOWED
  | ALLOWED_STEALTH, ALLOWED_STEALTH => true
  | _, _ => false
  end.

(** [FilteringEventRuleData]: one applied rule. *)
Record FilteringEventRuleData : Type := {
  filterId : Z;
  appliedRuleText : option string;
  originalRuleText : option string;
  allowlistRule : bool;
  documentLevelRule : bool;
  isStealthModeRule : bool;
  cookieRule : bool;
}.

(** [FilteringLogEvent]: the fields the request details read. *)
Record FilteringLogEvent : Type := {
  requestRule : option FilteringEventRuleData;
  replaceRules : option (list FilteringEventRuleData);
  stealthAllowlistRules : option (list FilteringEventRuleData);
  requestType : option RequestType;
  element : option string;
  cookieName : option string;
  script : option bool;
}.

(** The object [getRulesData] builds and returns. *)
Record RulesData : Type := {
  appliedRuleTexts : list string;
  originalRuleTexts : list string;
}.

(** The keys of [BUTTON_MAP]; a rendered row of buttons is the list of the
    keys whose entries were passed to [renderButton], in order. *)
Inductive ButtonKey : Type :=
| BLOCK
| UNBLOCK
| ALLOWLIST
| USER_FILTER
| REMOVE_ADDED_BLOCK_RULE
| REMOVE_ADDED_UNBLOCK_RULE
| PREVIEW.

Definition ButtonKey_eqb (a b : ButtonKey) : bool :=
  match a, b with
  | BLOCK, BLOCK
  | UNBLOCK, UNBLOCK
  | ALLOWLIST, ALLOWLIST
  | USER_FILTER, USER_FILTER
  | REMOVE_ADDED_BLOCK_RULE, REMOVE_ADDED_BLOCK_RULE
  | REMOVE_ADDED_UNBLOCK_RULE, REMOVE_ADDED_UNBLOCK_RULE
  | PREVIEW, PREVIEW => true
  | _, _ => false
  end.

(** ** RequestInfo.tsx *)

Module RequestInfo.

Section WithCollaborators.

(** [getFilterName] of [../utils]: the display name of a filter, [null]
    when there is none. *)
Variable getFilterName :
  option Z -> option (list FilterMetadata.t) -> option string.

(** [getStatusMode] of [filteringLogStatus]. *)
Variable getStatusMode : FilteringLogEvent -> StatusMode.

(** [AntiBannerFiltersId.UserFilterId] and
    [AntiBannerFiltersId.AllowlistFilterId]. *)
Variable UserFilterId : Z.
Variable AllowlistFilterId : Z.

(** The empty [result] object [getRulesData] starts from. *)
Definition emptyResult : RulesData :=
  {| appliedRuleTexts := []; originalRuleTexts := [] |}.

(** The template [`${text} (${filterName})`], chosen when [filterName] is
    truthy. *)
Definition withFilterName (text : string) (filterName : option string) : string :=
  match filterName with
  | Some name =>
      if Js.truthyString name then text ++ " (" ++ name ++ ")" else text
  | None => text
  end.

(** [addRule]: pushes onto the arrays of [result]. *)
Definition addRule (rule : FilteringEventRuleData) (filterName : option string)
    (result : RulesData) : RulesData :=
  let applied :=
    match appliedRuleText rule with
    | Some text =>
        if Js.truthyString text
        then (appliedRuleTexts result ++ [withFilterName text filterName])%list
        else appliedRuleTexts result
    | None => appliedRuleTexts result
    end in
  let original :=
    match originalRuleText rule with
    | Some text =>
        if Js.truthyString text
        then (originalRuleTexts result ++ [withFilterName text filterName])%list
        else originalRuleTexts result
    | None => originalRuleTexts result
    end in
  {| appliedRuleTexts := applied; originalRuleTexts := original |}.

(** The name [addRuleGroup] computes for one rule of a group:
    [filtersMetadata ? getFilterName(rule.filterId, filtersMetadata) : null]. *)
Definition groupFilterName (filtersMetadata : option (list FilterMetadata.t))
    (rule : FilteringEventRuleData) : option string :=
  if Js.truthyOptObject filtersMetadata
  then getFilterName (Some (filterId rule)) filtersMetadata
  else None.

(** [addRuleGroup].  The array holds rule objects, so [rules[0]] of an array
    of length 1 is truthy; [addRule(rules[0])] passes no filter name. *)
Definition addRuleGroup (filtersMetadata : option (list FilterMetadata.t))
    (rules : option (list FilteringEventRuleData)) (result : RulesData)
    : RulesData :=
  match rules with
  | None => result
  | Some [rule] => addRule rule None result
  | Some rules =>
      fold_left
        (fun acc rule => addRule rule (groupFilterName filtersMetadata rule) acc)
        rules result
  end.

(** [getRulesData].  [if (replaceRules)] and [if (stealthAllowlistRules)]
    test an optional array, which is truthy whenever it is present. *)
Definition getRulesData (event : FilteringLogEvent)
    (filtersMetadata : option (list FilterMetadata.t)) : RulesData :=
  if Js.truthyOptObject (replaceRules event) then
    addRuleGroup filtersMetadata (replaceRules event) emptyResult
  else if Js.truthyOptObject (stealthAllowlistRules event) then
    addRuleGroup filtersMetadata (stealthAllowlistRules event) emptyResult
  else
    match requestRule event with
    | None => emptyResult
    | Some rule =>
        if allowlistRule rule && documentLevelRule rule
           && (filterId rule =? AllowlistFilterId)
        then emptyResult
        else addRule rule None emptyResult
    end.

(** [rules?.length === 1]. *)
Definition hasLengthOne {A : Type} (rules : option (list A)) : bool :=
  match rules with
  | Some rules => (Z.of_nat (List.length rules) =? 1)
  | None => false
  end.

(** [rules[0]?.filterId]. *)
Definition firstFilterId (rules : option (list FilteringEventRuleData))
    : option Z :=
  match rules with
  | Some rules => option_map filterId (nth_error rules 0)
  | None => Datatypes.None
  end.

(** [getRuleFilterName]. *)
Definition getRuleFilterName (selectedEvent : FilteringLogEvent)
    (filtersMetadata : option (list FilterMetadata.t)) : option string :=
  match requestRule selectedEvent with
  | Some rule => getFilterName (Some (filterId rule)) filtersMetadata
  | None =>
      if hasLengthOne (replaceRules selectedEvent) then
        getFilterName (firstFilterId (replaceRules selectedEvent)) filtersMetadata
      else if hasLengthOne (stealthAllowlistRules selectedEvent) then
        getFilterName (firstFilterId (stealthAllowlistRules selectedEvent))
          filtersMetadata
      else None
  end.

(** [previewableTypes] of [renderControlButtons]. *)
Definition previewableTypes : list RequestType :=
  [Image; Document; Subdocument; Script; Stylesheet].

(** [showPreviewButton] of [renderControlButtons]. *)
Definition showPreviewButton (event : FilteringLogEvent) : bool :=
  match requestType event with
  | Some type => existsb (RequestType_eqb type) previewableTypes
  | None => false
  end
  && negb (Js.truthyOptString (element event))
  && negb (Js.truthyOptBool (script event))
  && negb (Js.truthyOptString (cookieName event))
  && negb (StatusMode_eqb (getStatusMode event) BLOCKED).

(** [{showPreviewButton && renderButton(BUTTON_MAP.PREVIEW)}]. *)
Definition previewPart (event : FilteringLogEvent) : list ButtonKey :=
  if showPreviewButton event then [PREVIEW] else [].

(** [renderControlButtons]: the buttons rendered, in order. *)
Definition renderControlButtons (addedRuleState : AddedRuleState.t)
    (event : FilteringLogEvent) : list ButtonKey :=
  match addedRuleState with
  | AddedRuleState.Block => [REMOVE_ADDED_BLOCK_RULE]
  | AddedRuleState.Unblock => [REMOVE_ADDED_UNBLOCK_RULE]
  | AddedRuleState.None =>
      match requestRule event with
      | None => ([BLOCK] ++ previewPart event)%list
      | Some requestRule =>
          if filterId requestRule =? UserFilterId then
            let buttonProps :=
              if isStealthModeRule requestRule then UNBLOCK else USER_FILTER in
            if allowlistRule requestRule
            then ([BLOCK; buttonProps] ++ previewPart event)%list
            else ([buttonProps] ++ previewPart event)%list
          else if filterId requestRule =? AllowlistFilterId then
            ([ALLOWLIST] ++ previewPart event)%list
          else if negb (allowlistRule requestRule) then
            ([UNBLOCK] ++ previewPart event)%list
          else
            ([BLOCK] ++ previewPart event)%list
      end
  end.

End WithCollaborators.

End RequestInfo.

(** ** The icons API *)

Module IconsApi.

(** How an awaited promise settles. *)
Inductive Settled (A : Type) : Type :=
| Fulfilled (value : A)
| Rejected.
Arguments Fulfilled {A} value.
Arguments Rejected {A}.

(** An icon: [Record<string, string>], image paths by size. *)
Definition Icon : Type := list (string * string).

(** [FrameData]: the fields [updateTabIcon] destructures. *)
Record FrameData : Type := {
  documentAllowlisted : bool;
  applicationFilteringDisabled : bool;
  totalBlockedTab : Z;
}.

(** The icons of a promo notification. *)
Record NotificationIcons : Type := {
  ICON_GREEN : option Icon;
  ICON_GRAY : option Icon;
}.

(** The fields of a promo notification [updateTabIcon] reads. *)
Record Notification : Type := {
  badgeText : option string;
  badgeBgColor : option string;
  icons : option NotificationIcons;
}.

(** [__IS_MV3__ ? browser.action : browser.browserAction]. *)
Inductive BrowserAction : Type :=
| action
| browserAction.

(** ['∞'], the infinity sign, in UTF-8. *)
Definition infinitySign : string :=
  String (ascii_of_nat 226) (String (ascii_of_nat 136)
    (String (ascii_of_nat 158) EmptyString)).

(** [String(n)] of an integer. *)
Definition String_ (n : Z) : string :=
  NilZero.string_of_int (Z.to_int n).

(** [a || b] on strings, the left one optional. *)
Definition orElse (a : option string) (b : string) : string :=
  match a with
  | Some s => if Js.truthyString s then s else b
  | None => b
  end.

Section WithBrowser.

(** The image data [getIconImageData] resolves to. *)
Variable ImageData : Type.

(** The calls [updateTabIcon] makes on the browser and on the logger. *)
Inductive Call : Type :=
| setIcon (api : BrowserAction) (tabId : Z) (imageData : ImageData)
| setBadgeText (api : BrowserAction) (tabId : Z) (text : string)
| setBadgeBackgroundColor (api : BrowserAction) (tabId : Z) (color : string)
| loggerInfo (message : string).

(** [settingsStorage.get(SettingOption.DisableShowPageStats)]. *)
Variable DisableShowPageStats : bool.
(** [RulesLimitsService.areFilterLimitsExceeded()]. *)
Variable areFilterLimitsExceeded : bool.
(** [browser.runtime.getURL]. *)
Variable getURL : string -> string.
(** [await promoNotificationApi.getCurrentNotification()]. *)
Variable getCurrentNotification : Settled (option Notification).
(** [__IS_MV3__]. *)
Variable IS_MV3 : bool.
(** [await getIconImageData(icon)]. *)
Variable getIconImageData : Icon -> Settled ImageData.
(** Whether the promise of a browser call rejects. *)
Variable rejects : Call -> bool.

(** Code that records its calls and may throw: from the calls made so far
    to the calls made, and the value unless it threw. *)
Definition Eff (A : Type) : Type := list Call -> list Call * option A.

Definition ret {A : Type} (a : A) : Eff A := fun calls => (calls, Some a).

Definition bind {A B : Type} (m : Eff A) (k : A -> Eff B) : Eff B :=
  fun calls =>
    match m calls with
    | (calls', Some a) => k a calls'
    | (calls', Datatypes.None) => (calls', Datatypes.None)
    end.

(** [await p] of a promise that makes no call of its own. *)
Definition await {A : Type} (p : Settled A) : Eff A :=
  fun calls =>
    match p with
    | Fulfilled a => (calls, Some a)
    | Rejected => (calls, Datatypes.None)
    end.

(** [await c(...)] of a browser call. *)
Definition invoke (c : Call) : Eff unit :=
  fun calls =>
    ((calls ++ [c])%list, if rejects c then Datatypes.None else Some tt).

(** [logger.info(message, e)]. *)
Definition log (message : string) : Eff unit :=
  fun calls => ((calls ++ [loggerInfo message])%list, Some tt).

(** [try { body } catch (e) { handler }]. *)
Definition tryCatch (body handler : Eff unit) : Eff unit :=
  fun calls =>
    match body calls with
    | (calls', Some a) => (calls', Some a)
    | (calls', Datatypes.None) => handler calls'
    end.

Notation "x <- m ;; k" := (bind m (fun x => k))
  (at level 61, m at next level, right associativity).
Notation "m ;; k" := (bind m (fun _ => k))
  (at level 61, right associativity).

(** [disabled]. *)
Definition disabled (frameData : FrameData) : bool :=
  documentAllowlisted frameData || applicationFilteringDisabled frameData.

(** [blocked]. *)
Definition blocked (frameData : FrameData) : Z :=
  if negb (disabled frameData) && negb DisableShowPageStats
  then totalBlockedTab frameData
  else 0.

(** [icon], before a notification is looked at. *)
Definition stateIcon (frameData : FrameData) : Icon :=
  if areFilterLimitsExceeded then
    [("19", getURL "assets/icons/warning-19.png");
     ("38", getURL "assets/icons/warning-38.png")]
  else if disabled frameData then
    [("19", getURL "assets/icons/off-19.png");
     ("38", getURL "assets/icons/off-38.png")]
  else
    [("19", getURL "assets/icons/on-19.png");
     ("38", getURL "assets/icons/on-38.png")].

(** [badge], before a notification is looked at. *)
Definition countBadge (frameData : FrameData) : string :=
  if blocked frameData =? 0 then ""
  else if blocked frameData >? 99 then infinitySign
  else String_ (blocked frameData).

(** [badge], [badgeColor] and [icon] once the notification, if any, has
    been indicated. *)
Definition badge (notification : option Notification) (frameData : FrameData)
    : string :=
  match notification with
  | Some n => orElse (badgeText n) (countBadge frameData)
  | Datatypes.None => countBadge frameData
  end.

Definition badgeColor (notification : option Notification) : string :=
  match notification with
  | Some n => orElse (badgeBgColor n) "#555"
  | Datatypes.None => "#555"
  end.

Definition icon (notification : option Notification) (frameData : FrameData)
    : Icon :=
  match notification with
  | Some n =>
      if disabled frameData then
        match icons n with
        | Some {| ICON_GRAY := Some gray |} => gray
        | _ => stateIcon frameData
        end
      else
        match icons n with
        | Some {| ICON_GREEN := Some green |} => green
        | _ => stateIcon frameData
        end
  | Datatypes.None => stateIcon frameData
  end.

(** [updateTabIcon], for the values its two reads before the [try] return
    ([DisableShowPageStats] and [areFilterLimitsExceeded] above); the reads
    themselves, which may throw, are in [IconsApiEntry.updateTabIcon]. *)
Definition updateTabIcon (tabId : Z) (frameData : FrameData) : Eff unit :=
  tryCatch
    (notification <- await getCurrentNotification ;;
     let api := if IS_MV3 then action else browserAction in
     imageData <- await (getIconImageData (icon notification frameData)) ;;
     invoke (setIcon api tabId imageData) ;;
     if Js.truthyString (badge notification frameData) then
       invoke (setBadgeText api tabId (badge notification frameData)) ;;
       invoke (setBadgeBackgroundColor api tabId (badgeColor notification))
     else ret tt)
    (log "Failed to update tab icon:").

(** The calls one run of [updateTabIcon] makes. *)
Definition callsOf (tabId : Z) (frameData : FrameData) : list Call :=
  fst (updateTabIcon tabId frameData []).

End WithBrowser.

Arguments setIcon {ImageData} api tabId imageData.
Arguments setBadgeText {ImageData} api tabId text.
Arguments setBadgeBackgroundColor {ImageData} api tabId color.
Arguments loggerInfo {ImageData} message.

End IconsApi.

(** ** Vocabulary of the specification *)

Module Spec.

(** A rule group that holds at least one rule. *)
Definition isNonEmpty {A : Type} (rules : option (list A)) : bool :=
  match rules with
  | Some (_ :: _) => true
  | _ => false
  end.

(** [requestRule], if present, processed alone: its texts as [addRule]
    adds them, without filter name, to the empty result. *)
Definition requestRuleAlone (event : FilteringLogEvent) : RulesData :=
  match requestRule event with
  | Some rule => RequestInfo.addRule rule None RequestInfo.emptyResult
  | None => RequestInfo.emptyResult
  end.

(** The one group [getRulesData] takes the texts of an event from. *)
Definition authoritativeGroup (event : FilteringLogEvent)
    : list FilteringEventRuleData :=
  match replaceRules event, stealthAllowlistRules event, requestRule event with
  | Some rules, _, _ => rules
  | None, Some rules, _ => rules
  | None, None, Some rule => [rule]
  | None, None, None => []
  end.

(** What one text of a rule contributes to an output sequence: nothing
    when the text is missing or empty, else the text, followed by the
    filter name in parentheses when there is a name. *)
Definition emitted (text filterName : option string) : list string :=
  match text with
  | Some t =>
      if Js.truthyString t then
        match filterName with
        | Some n => if Js.truthyString n then [t ++ " (" ++ n ++ ")"] else [t]
        | None => [t]
        end
      else []
  | None => []
  end.

(** The name the texts of a rule are annotated with in a group of [n]
    rules, [resolved] being what name resolution gives for the rule: a
    group of one rule is not annotated. *)
Definition nameInGroup (n : nat) (resolved : option string) : option string :=
  match n with
  | 1%nat => None
  | _ => resolved
  end.

(** The precedence of the rule groups, were it decided by which group
    holds a rule: a group with a rule in it is processed alone, and with
    no such group [requestRule], if present, is processed alone. *)
Definition nonEmptyPrecedence
    (getFilterName : option Z -> option (list FilterMetadata.t) -> option string)
    (AllowlistFilterId : Z) (event : FilteringLogEvent)
    (filtersMetadata : option (list FilterMetadata.t)) : Prop :=
  let getRulesData := RequestInfo.getRulesData getFilterName AllowlistFilterId in
  let addRuleGroup := RequestInfo.addRuleGroup getFilterName filtersMetadata in
  (isNonEmpty (replaceRules event) = true ->
   getRulesData event filtersMetadata
   = addRuleGroup (replaceRules event) RequestInfo.emptyResult)
  /\ (isNonEmpty (replaceRules event) = false ->
      isNonEmpty (stealthAllowlistRules event) = true ->
      getRulesData event filtersMetadata
      = addRuleGroup (stealthAllowlistRules event) RequestInfo.emptyResult)
  /\ (isNonEmpty (replaceRules event) = false ->
      isNonEmpty (stealthAllowlistRules event) = false ->
      getRulesData event filtersMetadata = requestRuleAlone event).

(** The text of a single [requestRule] is shown, bare, whenever it is not
    empty; no original text is shown unless the rule has one. *)
Definition requestRuleTextShown
    (getFilterName : option Z -> option (list FilterMetadata.t) -> option string)
    (AllowlistFilterId : Z) (event : FilteringLogEvent)
    (filtersMetadata : option (list FilterMetadata.t)) : Prop :=
  let result :=
    RequestInfo.getRulesData getFilterName AllowlistFilterId event filtersMetadata in
  forall rule text,
    replaceRules event = None ->
    stealthAllowlistRules event = None ->
    requestRule event = Some rule ->
    appliedRuleText rule = Some text ->
    text <> "" ->
    appliedRuleTexts result = [text]
    /\ (Js.truthyOptString (originalRuleText rule) = false ->
        originalRuleTexts result = []).

(** The implicit allow decision of an allowlisted site: an allowlist rule
    at document level that comes from the allowlist filter. *)
Definition isSiteAllowlistRule (AllowlistFilterId : Z)
    (rule : FilteringEventRuleData) : Prop :=
  allowlistRule rule = true
  /\ documentLevelRule rule = true
  /\ filterId rule = AllowlistFilterId.

(** A marker of the event is set. *)
Definition stringMarkerSet (marker : option string) : Prop :=
  exists s, marker = Some s /\ s <> "".

Definition scriptMarkerSet (marker : option bool) : Prop :=
  marker = Some true.

(** The request of the event can be previewed. *)
Definition previewEligible (getStatusMode : FilteringLogEvent -> StatusMode)
    (event : FilteringLogEvent) : Prop :=
  (exists type, requestType event = Some type
                /\ In type [Image; Document; Subdocument; Script; Stylesheet])
  /\ ~ stringMarkerSet (element event)
  /\ ~ scriptMarkerSet (script event)
  /\ ~ stringMarkerSet (cookieName event)
  /\ getStatusMode event <> BLOCKED.

End Spec.

(** ** Sample collaborators and events *)

Module Samples.

(** Modelled from the spec: [getFilterName] is defined in [../utils],
    outside these sources.  The filter metadata is a mapping from filter
    identifier to display name; an unknown identifier has no name. *)
Definition getFilterName (filterId : option Z)
    (filtersMetadata : option (list FilterMetadata.t)) : option string :=
  match filterId, filtersMetadata with
  | Some id, Some metadata =>
      option_map FilterMetadata.name
        (find (fun m => FilterMetadata.filterId m =? id) metadata)
  | _, _ => None
  end.

(** Modelled from the spec: [getStatusMode] is defined in
    [filteringLogStatus], outside these sources, and the spec only calls its
    result the derived status of the event.  This stand-in reports an event
    blocked when a rule that is no allowlist rule applied to it; it serves
    to run the definitions on sample events, and every theorem below holds
    for any [getStatusMode]. *)
Definition getStatusMode (event : FilteringLogEvent) : StatusMode :=
  match requestRule event with
  | Some rule => if allowlistRule rule then ALLOWED else BLOCKED
  | None => REGULAR
  end.

(** Modelled from the spec: the reserved filter identifiers of
    [AntiBannerFiltersId], declared in [common/constants], outside these
    sources. *)
Definition UserFilterId : Z := 0.
Definition AllowlistFilterId : Z := 100.

Definition filtersMetadata : option (list FilterMetadata.t) :=
  Some [ FilterMetadata.Build 2 "AdGuard Base filter";
         FilterMetadata.Build 3 "AdGuard Tracking Protection filter" ].

Definition rule (id : Z) (applied original : option string)
    (allowlist documentLevel stealth : bool) : FilteringEventRuleData :=
  {| filterId := id;
     appliedRuleText := applied;
     originalRuleText := original;
     allowlistRule := allowlist;
     documentLevelRule := documentLevel;
     isStealthModeRule := stealth;
     cookieRule := false |}.

Definition event (request : option FilteringEventRuleData)
    (replace stealth : option (list FilteringEventRuleData))
    (type : option RequestType) : FilteringLogEvent :=
  {| requestRule := request;
     replaceRules := replace;
     stealthAllowlistRules := stealth;
     requestType := type;
     element := None;
     cookieName := None;
     script := None |}.

(** A blocking rule of the base filter. *)
Definition blockingRule : FilteringEventRuleData :=
  rule 2 (Some "||ads.example.org^") None false false false.

(** A converted rule of the tracking protection filter. *)
Definition convertedRule : FilteringEventRuleData :=
  rule 3 (Some "||example.org^$replace=/a/b/") (Some "example.org$$replace")
    false false false.

(** A rule of a filter the metadata does not list. *)
Definition unlistedRule : FilteringEventRuleData :=
  rule 77 (Some "||cdn.example.org^$replace=/x/y/") None false false false.

(** The rule of a site the user has put on the allowlist. *)
Definition siteAllowlistRule : FilteringEventRuleData :=
  rule AllowlistFilterId (Some "@@//example.org$document") None true true false.

(** Allowlist rules of the user filter. *)
Definition userAllowlistRule : FilteringEventRuleData :=
  rule UserFilterId (Some "@@||example.org^") None true false false.

Definition userStealthAllowlistRule : FilteringEventRuleData :=
  rule UserFilterId (Some "@@||example.org^$stealth") None true false true.

(** A rule without texts. *)
Definition textlessRule : FilteringEventRuleData :=
  rule 2 None None false false false.

(** An event whose [replaceRules] is the empty array, and that a blocking
    rule applied to. *)
Definition emptyReplaceEvent : FilteringLogEvent :=
  event (Some blockingRule) (Some []) None (Some Script).

(** An allowlisted document. *)
Definition allowlistedEvent : FilteringLogEvent :=
  event (Some siteAllowlistRule) None None (Some Document).

(** An image no rule applied to. *)
Definition plainImageEvent : FilteringLogEvent :=
  event None None None (Some Image).

(** A script a blocking rule applied to. *)
Definition blockedScriptEvent : FilteringLogEvent :=
  event (Some blockingRule) None None (Some Script).

(** A document two replace rules applied to, one of them of a filter the
    metadata does not list. *)
Definition replacedEvent : FilteringLogEvent :=
  event None (Some [convertedRule; unlistedRule]) None (Some Document).

(** A document a blocking rule and one replace rule applied to. *)
Definition mixedEvent : FilteringLogEvent :=
  event (Some blockingRule) (Some [convertedRule]) None (Some Document).

(** An image an allowlist rule of the user filter applied to. *)
Definition userAllowlistEvent : FilteringLogEvent :=
  event (Some userAllowlistRule) None None (Some Image).

(** A tab with 7 blocked requests, and a browser in which no promise
    rejects, no promo notification is running and the image data of an icon
    is the icon itself. *)
Definition frameData : IconsApi.FrameData :=
  {| IconsApi.documentAllowlisted := false;
     IconsApi.applicationFilteringDisabled := false;
     IconsApi.totalBlockedTab := 7 |}.

Definition getCurrentNotification
    : IconsApi.Settled (option IconsApi.Notification) :=
  IconsApi.Fulfilled None.

Definition getIconImageData (icon : IconsApi.Icon)
    : IconsApi.Settled IconsApi.Icon :=
  IconsApi.Fulfilled icon.

Definition rejects (call : IconsApi.Call IconsApi.Icon) : bool := false.

Definition getURL (path : string) : string :=
  "chrome-extension://adguard/" ++ path.

End Samples.

(** ** The icons API, from the reads that precede the [try] *)

Module IconsApiEntry.

Import IconsApi.

Section WithBrowser.

Variable ImageData : Type.
(** [settingsStorage.get(SettingOption.DisableShowPageStats)] and
    [RulesLimitsService.areFilterLimitsExceeded()]: the value returned, or
    [Rejected] when the call throws.  Both run before the [try]. *)
Variable readDisableShowPageStats : Settled bool.
Variable readAreFilterLimitsExceeded : Settled bool.
Variable getURL : string -> string.
Variable getCurrentNotification : Settled (option Notification).
Variable IS_MV3 : bool.
Variable getIconImageData : Icon -> Settled ImageData.
Variable rejects : Call ImageData -> bool.

(** [updateTabIcon], whole.  [!disabled && !settingsStorage.get(...)] reads
    the setting only when the tab is neither allowlisted nor disabled;
    otherwise [blocked] is 0 whatever the setting.  What follows the two
    reads is [IconsApi.updateTabIcon] for the values read. *)
Definition updateTabIcon (tabId : Z) (frameData : FrameData)
    : Eff ImageData unit :=
  bind ImageData
    (if negb (disabled frameData)
     then await ImageData readDisableShowPageStats
     else ret ImageData false)
    (fun disableShowPageStats =>
       bind ImageData (await ImageData readAreFilterLimitsExceeded)
         (fun isWarning =>
            IconsApi.updateTabIcon ImageData disableShowPageStats isWarning
              getURL getCurrentNotification IS_MV3 getIconImageData rejects
              tabId frameData)).

End WithBrowser.

End IconsApiEntry.

(** ** The rest of RequestInfo.tsx: stealth actions, info parts, buttons *)

Module RequestInfoComponent.

(** What the component takes from outside the file. *)
Record Collaborators : Type := {
  (** [getFilterName] of [../utils]. *)
  getFilterName : option Z -> option (list FilterMetadata.t) -> option string;
  (** [getStatusMode] of [filteringLogStatus]. *)
  getStatusMode : FilteringLogEvent -> StatusMode;
  (** The reserved identifiers of [AntiBannerFiltersId]. *)
  UserFilterId : Z;
  AllowlistFilterId : Z;
  (** [translator.getMessage] and [translator.getPlural]. *)
  getMessage : string -> string;
  getPlural : string -> Z -> string;
  (** The numbers among [Object.values(StealthActions)], in the order of
      the enumeration. *)
  StealthActionsValues : list Z;
  (** The members of [StealthActions] the names are keyed by. *)
  HideReferrer : Z;
  SendDoNotTrack : Z;
  HideSearchQueries : Z;
  FirstPartyCookies : Z;
  ThirdPartyCookies : Z;
  BlockChromeClientData : Z;
  (** [LINE_COUNT_LIMIT.REQUEST_URL] and [LINE_COUNT_LIMIT.RULE]. *)
  LINE_COUNT_LIMIT_REQUEST_URL : Z;
  LINE_COUNT_LIMIT_RULE : Z;
}.

(** The selected event: the fields of [FilteringLogEvent] read by the rule
    texts and the buttons, and the other fields the component shows. *)
Record SelectedEvent : Type := {
  event : FilteringLogEvent;
  requestUrl : option string;
  frameDomain : option string;
  stealthActions : option Z;
  (** [selectedEvent.appliedRuleText] and [selectedEvent.filterName]. *)
  eventAppliedRuleText : option string;
  eventFilterName : option string;
  (** What [getCookieData] and [getRequestEventType] of [../utils] give for
      the event. *)
  cookieData : option string;
  requestEventType : option string;
}.

(** [PARTS]. *)
Inductive Part : Type :=
| URL
| ELEMENT
| COOKIE
| TYPE
| SOURCE
| ASSUMED_RULE
| ORIGINAL_RULE
| FILTER
| STEALTH.

Definition Part_eqb (a b : Part) : bool :=
  match a, b with
  | URL, URL
  | ELEMENT, ELEMENT
  | COOKIE, COOKIE
  | TYPE, TYPE
  | SOURCE, SOURCE
  | ASSUMED_RULE, ASSUMED_RULE
  | ORIGINAL_RULE, ORIGINAL_RULE
  | FILTER, FILTER
  | STEALTH, STEALTH => true
  | _, _ => false
  end.

(** The [data] of a part that is not [null]: [string | string[]].  The one
    array is [rulesData.appliedRuleTexts]. *)
Inductive PartData : Type :=
| Text (text : string)
| Texts (texts : list string).

(** [EventPartData]. *)
Record EventPartData : Type := {
  title : string;
  data : option PartData;
}.

(** One entry of [renderedInfo] that is not [null]: the title, the texts
    shown through [TextCollapser] and what the entry computes for them. *)
Record RenderedPart : Type := {
  part : Part;
  partTitle : string;
  texts : list string;
  isRequestUrl : bool;
  isRule : bool;
  isElement : bool;
  canCopyToClipboard : bool;
  lineCountLimit : Z;
  showMessage : option string;
  hideMessage : option string;
  (** The open-in-new-tab button is rendered next to the texts. *)
  openInNewTab : bool;
  (** The red dot and the note on assumed rules are rendered. *)
  assumedRuleNote : bool;
}.

(** The store methods the click handlers call. *)
Inductive StoreAction : Type :=
| setBlockState
| setUnblockState
| removeFromAllowlistHandler
| removeFromUserFilterHandler (event : FilteringLogEvent)
| removeAddedRuleFromUserFilter
| setPreviewState.

(** [ButtonProps]. *)
Record ButtonProps : Type := {
  buttonTitleKey : string;
  onClick : StoreAction;
  className : option string;
}.

(** The [button] element [renderButton] returns. *)
Record Button : Type := {
  disabled : bool;
  buttonClass : string;
  buttonTitle : string;
  buttonOnClick : StoreAction;
}.

(** [x & y] on integers: both operands are taken to 32-bit signed
    integers. *)
Definition toInt32 (x : Z) : Z :=
  (x + 2 ^ 31) mod 2 ^ 32 - 2 ^ 31.

(** The 32-bit signed integers. *)
Definition isInt32 (x : Z) : Prop := - 2 ^ 31 <= x < 2 ^ 31.

Definition bitAnd (x y : Z) : Z :=
  Z.land (toInt32 x) (toInt32 y).

(** [Boolean(x)] of [x?: number], for an integer. *)
Definition truthyOptNumber (o : option Z) : bool :=
  match o with
  | Some x => negb (x =? 0)
  | None => false
  end.

(** The strings of an array that [filter(identity)] keeps, [null] and
    [undefined] entries being [None]. *)
Definition filterIdentity (l : list (option string)) : list string :=
  flat_map
    (fun o =>
       match o with
       | Some s => if Js.truthyString s then [s] else []
       | None => []
       end)
    l.

(** The line feed of ['\n']. *)
Definition lineFeed : string := String (ascii_of_nat 10) EmptyString.

(** [cn(base, className)] of [classnames], for one optional class. *)
Definition cn (base : string) (className : option string) : string :=
  match className with
  | Some c => if Js.truthyString c then base ++ " " ++ c else base
  | None => base
  end.

Section WithCollaborators.

Variable ext : Collaborators.

(** [StealthActionNames]: the object literal, key by key. *)
Definition StealthActionNamesEntries : list (Z * string) :=
  [ (HideReferrer ext, getMessage ext "filtering_log_hide_referrer");
    (SendDoNotTrack ext, getMessage ext "filtering_log_send_not_track");
    (HideSearchQueries ext, getMessage ext "filtering_log_hide_search_queries");
    (FirstPartyCookies ext, getMessage ext "options_modified_first_party_cookie");
    (ThirdPartyCookies ext, getMessage ext "options_modified_third_party_cookie");
    (BlockChromeClientData ext, getMessage ext "filtering_log_remove_client_data") ].

(** [StealthActionNames[action]]: of two entries with the same key the
    object keeps the later one. *)
Definition StealthActionNames (action : Z) : option string :=
  option_map snd
    (find (fun entry => fst entry =? action) (rev StealthActionNamesEntries)).

(** The array [result] of [getStealthActionNames]. *)
Definition stealthActionNamesOf (actions : Z) : list string :=
  filterIdentity
    (map
       (fun action =>
          if bitAnd actions action =? action
          then StealthActionNames action
          else None)
       (StealthActionsValues ext)).

(** [getStealthActionNames]. *)
Definition getStealthActionNames (actions : option Z) : option string :=
  match actions with
  | Some mask =>
      if truthyOptNumber actions then
        let result := stealthActionNamesOf mask in
        if (0 <? Z.of_nat (List.length result))
        then Some (String.concat ", " result)
        else None
      else None
  | None => None
  end.

(** [rulesData] of the component. *)
Definition rulesData (filtersMetadata : option (list FilterMetadata.t))
    (selectedEvent : SelectedEvent) : RulesData :=
  RequestInfo.getRulesData (getFilterName ext) (AllowlistFilterId ext)
    (event selectedEvent) filtersMetadata.

(** [eventPartsMap[part]], once the rule texts have been added to the map;
    [None] where the map has no such key. *)
Definition eventPartsMap (filtersMetadata : option (list FilterMetadata.t))
    (selectedEvent : SelectedEvent) (id : Part) : option EventPartData :=
  let texts := rulesData filtersMetadata selectedEvent in
  match id with
  | URL =>
      Some {| title := getMessage ext "options_popup_filter_url";
              data := option_map Text (requestUrl selectedEvent) |}
  | ELEMENT =>
      Some {| title := getMessage ext "filtering_modal_element";
              data := option_map Text (element (event selectedEvent)) |}
  | COOKIE =>
      Some {| title := getMessage ext "filtering_modal_cookie";
              data := option_map Text (cookieData selectedEvent) |}
  | TYPE =>
      Some {| title := getMessage ext "filtering_modal_type";
              data := option_map Text (requestEventType selectedEvent) |}
  | SOURCE =>
      Some {| title := getMessage ext "filtering_modal_source";
              data := option_map Text (frameDomain selectedEvent) |}
  | FILTER =>
      Some {| title := getMessage ext "filtering_modal_filter";
              data := option_map Text
                        (RequestInfo.getRuleFilterName (getFilterName ext)
                           (event selectedEvent) filtersMetadata) |}
  | STEALTH =>
      Some {| title := getMessage ext "filtering_modal_privacy";
              data := option_map Text
                        (getStealthActionNames (stealthActions selectedEvent)) |}
  | ASSUMED_RULE =>
      Some {| title :=
                getPlural ext "filtering_modal_assumed_rules"
                  (Z.max (Z.of_nat (List.length (appliedRuleTexts texts))) 1);
              data :=
                if (0 <? Z.of_nat (List.length (appliedRuleTexts texts)))
                then Some (Texts (appliedRuleTexts texts))
                else None |}
  | ORIGINAL_RULE =>
      if (0 <? Z.of_nat (List.length (originalRuleTexts texts)))
      then
        Some {| title :=
                  getPlural ext "filtering_modal_original_rules"
                    (Z.max (Z.of_nat (List.length (originalRuleTexts texts))) 1);
                data :=
                  Some (Text (String.concat lineFeed (originalRuleTexts texts))) |}
      else None
  end.

(** [infoElements]. *)
Definition infoElements (selectedEvent : SelectedEvent) : list Part :=
  match requestRule (event selectedEvent) with
  | Some rule =>
      if cookieRule rule
      then [COOKIE; TYPE; SOURCE; STEALTH; ASSUMED_RULE; ORIGINAL_RULE; FILTER]
      else [URL; ELEMENT; COOKIE; TYPE; SOURCE; ASSUMED_RULE; ORIGINAL_RULE;
            FILTER; STEALTH]
  | None =>
      [URL; ELEMENT; COOKIE; TYPE; SOURCE; ASSUMED_RULE; ORIGINAL_RULE;
       FILTER; STEALTH]
  end.

(** [showOpenInNewTabButton] of [renderInfoUrlButtons]. *)
Definition showOpenInNewTabButton (e : FilteringLogEvent) : bool :=
  negb (Js.truthyOptString (element e)
        || Js.truthyOptString (cookieName e)
        || Js.truthyOptBool (script e)).

(** [!data]. *)
Definition truthyData (d : option PartData) : bool :=
  match d with
  | Some (Text s) => Js.truthyString s
  | Some (Texts _) => true
  | None => false
  end.

(** [data === s] for an optional string field [s] of the event, [data]
    being truthy. *)
Definition sameAs (d : PartData) (field : option string) : bool :=
  match d, field with
  | Text s, Some s' => String.eqb s s'
  | _, _ => false
  end.

(** What the last [map] of [renderedInfo] returns for one part: [None] for
    [null]. *)
Definition renderPart (selectedEvent : SelectedEvent) (id : Part)
    (eventPart : EventPartData) : option RenderedPart :=
  match data eventPart with
  | None => None
  | Some d =>
      if negb (truthyData (Some d)) then None
      else
        let isRequestUrl := sameAs d (requestUrl selectedEvent) in
        let isRule :=
          sameAs d (eventAppliedRuleText selectedEvent)
          || match d with Texts _ => true | Text _ => false end in
        let isFilterName := sameAs d (eventFilterName selectedEvent) in
        let isElement := sameAs d (element (event selectedEvent)) in
        let messages :=
          if isRequestUrl then
            (Some "filtering_modal_show_full_url",
             Some "filtering_modal_hide_full_url")
          else if isRule then
            (Some "filtering_modal_show_full_rule",
             Some "filtering_modal_hide_full_rule")
          else if isElement then
            (Some "filtering_modal_show_full_element",
             Some "filtering_modal_hide_full_element")
          else (None, None) in
        Some {| part := id;
                partTitle := title eventPart;
                texts := match d with Texts l => l | Text s => [s] end;
                isRequestUrl := isRequestUrl;
                isRule := isRule;
                isElement := isElement;
                canCopyToClipboard := isRequestUrl || isRule || isFilterName;
                lineCountLimit :=
                  if isRule then LINE_COUNT_LIMIT_RULE ext
                  else LINE_COUNT_LIMIT_REQUEST_URL ext;
                showMessage := fst messages;
                hideMessage := snd messages;
                openInNewTab :=
                  isRequestUrl && showOpenInNewTabButton (event selectedEvent);
                assumedRuleNote := isRule |}
  end.

(** What one candidate part renders to: nothing when the map has no such
    part, or the part has no data. *)
Definition rendering (filtersMetadata : option (list FilterMetadata.t))
    (selectedEvent : SelectedEvent) (id : Part) : option RenderedPart :=
  match eventPartsMap filtersMetadata selectedEvent id with
  | Some eventPart => renderPart selectedEvent id eventPart
  | None => None
  end.

(** [renderedInfo], without the entries that are [null]. *)
Definition renderedInfo (filtersMetadata : option (list FilterMetadata.t))
    (selectedEvent : SelectedEvent) : list RenderedPart :=
  flat_map
    (fun id =>
       match eventPartsMap filtersMetadata selectedEvent id with
       | Some eventPart =>
           match renderPart selectedEvent id eventPart with
           | Some rendered => [rendered]
           | None => []
           end
       | None => []
       end)
    (infoElements selectedEvent).

(** [BUTTON_MAP]. *)
Definition BUTTON_MAP (e : FilteringLogEvent) (key : ButtonKey) : ButtonProps :=
  match key with
  | BLOCK =>
      {| buttonTitleKey := "filtering_modal_block";
         onClick := setBlockState;
         className := Some "request-modal__button--red" |}
  | UNBLOCK =>
      {| buttonTitleKey := "filtering_modal_unblock";
         onClick := setUnblockState;
         className := None |}
  | ALLOWLIST =>
      {| buttonTitleKey := "filtering_modal_remove_allowlist";
         onClick := removeFromAllowlistHandler;
         className := None |}
  | USER_FILTER =>
      {| buttonTitleKey := "filtering_modal_remove_user";
         onClick := removeFromUserFilterHandler e;
         className := None |}
  | REMOVE_ADDED_BLOCK_RULE =>
      {| buttonTitleKey := "filtering_modal_remove_user";
         onClick := removeAddedRuleFromUserFilter;
         className := None |}
  | REMOVE_ADDED_UNBLOCK_RULE =>
      {| buttonTitleKey := "filtering_modal_block_again";
         onClick := removeAddedRuleFromUserFilter;
         className := Some "request-modal__button--red" |}
  | PREVIEW =>
      {| buttonTitleKey := "filtering_modal_preview_request_button";
         onClick := setPreviewState;
         className := Some "request-modal__button--white" |}
  end.

(** [renderButton], [isActionSubmitted] being the flag of the wizard
    store. *)
Definition renderButton (isActionSubmitted : bool) (props : ButtonProps) : Button :=
  {| disabled := isActionSubmitted;
     buttonClass := cn "request-modal__button" (className props);
     buttonTitle := getMessage ext (buttonTitleKey props);
     buttonOnClick := onClick props |}.

(** The buttons [renderControlButtons] returns. *)
Definition controlButtons (isActionSubmitted : bool)
    (addedRuleState : AddedRuleState.t) (e : FilteringLogEvent) : list Button :=
  map (fun key => renderButton isActionSubmitted (BUTTON_MAP e key))
    (RequestInfo.renderControlButtons (getStatusMode ext) (UserFilterId ext)
       (AllowlistFilterId ext) addedRuleState e).

(** [getFilterStatusMode]. *)
Definition getFilterStatusMode (addedRuleState : AddedRuleState.t)
    (selectedEvent : SelectedEvent) : StatusMode :=
  match addedRuleState with
  | AddedRuleState.Block => BLOCKED
  | AddedRuleState.Unblock => ALLOWED
  | AddedRuleState.None => getStatusMode ext (event selectedEvent)
  end.

End WithCollaborators.

End RequestInfoComponent.

(** ** The configuration of the Edge build *)

Module WebpackEdge.

(** [BrowserConfig]: the fields [genEdgeConfig] reads. *)
Record BrowserConfig : Type := {
  browser : string;
  buildDir : string;
}.

(** One pattern of [CopyWebpackPlugin]; [transform] tells whether the
    content goes through [updateManifestBuffer] with the Edge manifest. *)
Record CopyPattern : Type := {
  context : option string;
  from : string;
  to : string;
  transform : bool;
}.

(** A plugin of the configuration: the copy plugin [genEdgeConfig] builds,
    or one it takes from elsewhere. *)
Inductive Plugin (P : Type) : Type :=
| CopyWebpackPlugin (patterns : list CopyPattern)
| OtherPlugin (plugin : P).
Arguments CopyWebpackPlugin {P} patterns.
Arguments OtherPlugin {P} plugin.

(** [Configuration]: the fields [genEdgeConfig] reads and writes; [E] are
    the entries and [P] the plugins taken from elsewhere.  [outputPath] is
    [config?.output?.path]: [None] when any of the three is missing. *)
Record Configuration (E P : Type) : Type := {
  entry : option E;
  outputPath : option string;
  plugins : list (Plugin P);
}.
Arguments entry {E P} c.
Arguments outputPath {E P} c.
Arguments plugins {E P} c.

Section WithTools.

Variables E P : Type.
(** [genMv2CommonConfig]. *)
Variable genMv2CommonConfig : BrowserConfig -> Configuration E P.
(** [CHROMIUM_DEVTOOLS_ENTRIES] and [CHROMIUM_DEVTOOLS_PAGES_PLUGINS]. *)
Variable CHROMIUM_DEVTOOLS_ENTRIES : E.
Variable CHROMIUM_DEVTOOLS_PAGES_PLUGINS : list P.
(** [path.join] and [path.resolve(__dirname, ...)]. *)
Variable pathJoin : string -> string -> string.
Variable pathResolve : string -> string.
(** [merge] of [webpack-merge]. *)
Variable merge : Configuration E P -> Configuration E P -> Configuration E P.

(** [edgeConfig], for the output path of the common configuration. *)
Definition edgeConfig (browserConfig : BrowserConfig) (commonPath : string)
    : Configuration E P :=
  {| entry := Some CHROMIUM_DEVTOOLS_ENTRIES;
     outputPath := Some (pathJoin commonPath (buildDir browserConfig));
     plugins :=
       CopyWebpackPlugin
         [ {| context := None;
              from := pathResolve "../manifest.common.json";
              to := "manifest.json";
              transform := true |};
           {| context := Some "Extension";
              from := "filters/edge";
              to := "filters";
              transform := false |} ]
       :: map OtherPlugin CHROMIUM_DEVTOOLS_PAGES_PLUGINS |}.

(** [genEdgeConfig]: the configuration, or the message of the error
    thrown. *)
Definition genEdgeConfig (browserConfig : BrowserConfig)
    : string + Configuration E P :=
  let commonConfig := genMv2CommonConfig browserConfig in
  if negb (Js.truthyOptString (outputPath commonConfig)) then
    inl "commonConfig.output.path is undefined"
  else
    match outputPath commonConfig with
    | Some commonPath =>
        inr (merge commonConfig (edgeConfig browserConfig commonPath))
    | None => inl "commonConfig.output.path is undefined"
    end.

End WithTools.

End WebpackEdge.

(** ** Sample collaborators of the component *)

Module ComponentSamples.

(** Modelled from the spec: the translator, the stealth actions of the
    filtering engine and the line limits are declared outside these
    sources.  The stand-ins translate a key to itself and give the six
    stealth actions one bit each; every theorem below holds for any
    collaborators. *)
Definition ext : RequestInfoComponent.Collaborators :=
  {| RequestInfoComponent.getFilterName := Samples.getFilterName;
     RequestInfoComponent.getStatusMode := Samples.getStatusMode;
     RequestInfoComponent.UserFilterId := Samples.UserFilterId;
     RequestInfoComponent.AllowlistFilterId := Samples.AllowlistFilterId;
     RequestInfoComponent.getMessage := fun key => key;
     RequestInfoComponent.getPlural := fun key _ => key;
     RequestInfoComponent.StealthActionsValues := [1; 2; 4; 8; 16; 32];
     RequestInfoComponent.HideReferrer := 1;
     RequestInfoComponent.HideSearchQueries := 2;
     RequestInfoComponent.BlockChromeClientData := 4;
     RequestInfoComponent.SendDoNotTrack := 8;
     RequestInfoComponent.FirstPartyCookies := 16;
     RequestInfoComponent.ThirdPartyCookies := 32;
     RequestInfoComponent.LINE_COUNT_LIMIT_REQUEST_URL := 3;
     RequestInfoComponent.LINE_COUNT_LIMIT_RULE := 5 |}.

(** A promo notification with a badge text and no colour of its own. *)
Definition promo : IconsApi.Notification :=
  {| IconsApi.badgeText := Some "!";
     IconsApi.badgeBgColor := None;
     IconsApi.icons := None |}.

(** An allowlisted tab. *)
Definition allowlistedTab : IconsApi.FrameData :=
  {| IconsApi.documentAllowlisted := true;
     IconsApi.applicationFilteringDisabled := false;
     IconsApi.totalBlockedTab := 12 |}.

End ComponentSamples.

(** ** Facts about JavaScript truthiness *)

Module JsFacts.

Lemma truthyString_true (s : string) :
  Js.truthyString s = true <-> s <> "".
Proof.
  destruct s; simpl; split; intros H; try reflexivity; try discriminate.
  contradiction H; reflexivity.
Qed.

Lemma truthyString_false (s : string) :
  Js.truthyString s = false <-> s = "".
Proof.
  destruct s; simpl; split; intros H; try reflexivity; discriminate.
Qed.

Lemma truthyOptString_set (o : option string) :
  Js.truthyOptString o = true <-> Spec.stringMarkerSet o.
Proof.
  unfold Spec.stringMarkerSet. destruct o as [s|]; simpl.
  - rewrite truthyString_true. split.
    + intros H. exists s. split; [reflexivity | exact H].
    + intros [s' [E H]]. injection E as ->. exact H.
  - split; [discriminate | intros [s' [E _]]; discriminate].
Qed.

Lemma truthyOptBool_set (o : option bool) :
  Js.truthyOptBool o = true <-> Spec.scriptMarkerSet o.
Proof.
  unfold Spec.scriptMarkerSet. destruct o as [[|]|]; simpl; split;
    intros H; try reflexivity; try discriminate.
Qed.

End JsFacts.

(** ** The request details *)

Module RequestInfoFacts.

Section Facts.

Variable getFilterName :
  option Z -> option (list FilterMetadata.t) -> option string.
Variable getStatusMode : FilteringLogEvent -> StatusMode.
Variable UserFilterId : Z.
Variable AllowlistFilterId : Z.

Local Abbreviation addRule := RequestInfo.addRule.
Local Abbreviation emptyResult := RequestInfo.emptyResult.
Local Abbreviation groupFilterName := (RequestInfo.groupFilterName getFilterName).
Local Abbreviation addRuleGroup := (RequestInfo.addRuleGroup getFilterName).
Local Abbreviation getRulesData :=
  (RequestInfo.getRulesData getFilterName AllowlistFilterId).
Local Abbreviation getRuleFilterName := (RequestInfo.getRuleFilterName getFilterName).
Local Abbreviation showPreviewButton := (RequestInfo.showPreviewButton getStatusMode).
Local Abbreviation previewPart := (RequestInfo.previewPart getStatusMode).
Local Abbreviation renderControlButtons :=
  (RequestInfo.renderControlButtons getStatusMode UserFilterId AllowlistFilterId).

(** [addRule] appends to each array what the matching text emits. *)
Lemma addRule_applied rule filterName result :
  appliedRuleTexts (addRule rule filterName result)
  = (appliedRuleTexts result
     ++ Spec.emitted (appliedRuleText rule) filterName)%list.
Proof.
  unfold RequestInfo.addRule, RequestInfo.withFilterName, Spec.emitted; simpl.
  destruct (appliedRuleText rule) as [t|]; [|now rewrite app_nil_r].
  destruct (Js.truthyString t); [|now rewrite app_nil_r].
  destruct filterName as [n|]; [|reflexivity].
  destruct (Js.truthyString n); reflexivity.
Qed.

Lemma addRule_original rule filterName result :
  originalRuleTexts (addRule rule filterName result)
  = (originalRuleTexts result
     ++ Spec.emitted (originalRuleText rule) filterName)%list.
Proof.
  unfold RequestInfo.addRule, RequestInfo.withFilterName, Spec.emitted; simpl.
  destruct (originalRuleText rule) as [t|]; [|now rewrite app_nil_r].
  destruct (Js.truthyString t); [|now rewrite app_nil_r].
  destruct filterName as [n|]; [|reflexivity].
  destruct (Js.truthyString n); reflexivity.
Qed.

(** The [forEach] loop of [addRuleGroup], whatever name each rule gets. *)
Lemma forEach_applied (nameOf : FilteringEventRuleData -> option string) rules :
  forall result,
    appliedRuleTexts
      (fold_left (fun acc rule => addRule rule (nameOf rule) acc) rules result)
    = (appliedRuleTexts result
       ++ flat_map (fun rule => Spec.emitted (appliedRuleText rule) (nameOf rule))
            rules)%list.
Proof.
  induction rules as [|rule rules IH]; intros result; simpl.
  - now rewrite app_nil_r.
  - rewrite IH, addRule_applied, <- app_assoc. reflexivity.
Qed.

Lemma forEach_original (nameOf : FilteringEventRuleData -> option string) rules :
  forall result,
    originalRuleTexts
      (fold_left (fun acc rule => addRule rule (nameOf rule) acc) rules result)
    = (originalRuleTexts result
       ++ flat_map (fun rule => Spec.emitted (originalRuleText rule) (nameOf rule))
            rules)%list.
Proof.
  induction rules as [|rule rules IH]; intros result; simpl.
  - now rewrite app_nil_r.
  - rewrite IH, addRule_original, <- app_assoc. reflexivity.
Qed.

(** [addRuleGroup] on an empty result, as one pass over the group. *)
Lemma addRuleGroup_applied filtersMetadata rules :
  appliedRuleTexts (addRuleGroup filtersMetadata (Some rules) emptyResult)
  = flat_map
      (fun rule => Spec.emitted (appliedRuleText rule)
                     (Spec.nameInGroup (List.length rules)
                        (groupFilterName filtersMetadata rule)))
      rules.
Proof.
  destruct rules as [|r [|r' rest]].
  - reflexivity.
  - unfold RequestInfo.addRuleGroup. rewrite addRule_applied. simpl.
    now rewrite app_nil_r.
  - unfold RequestInfo.addRuleGroup. rewrite forEach_applied. reflexivity.
Qed.

Lemma addRuleGroup_original filtersMetadata rules :
  originalRuleTexts (addRuleGroup filtersMetadata (Some rules) emptyResult)
  = flat_map
      (fun rule => Spec.emitted (originalRuleText rule)
                     (Spec.nameInGroup (List.length rules)
                        (groupFilterName filtersMetadata rule)))
      rules.
Proof.
  destruct rules as [|r [|r' rest]].
  - reflexivity.
  - unfold RequestInfo.addRuleGroup. rewrite addRule_original. simpl.
    now rewrite app_nil_r.
  - unfold RequestInfo.addRuleGroup. rewrite forEach_original. reflexivity.
Qed.

(** Every text [addRuleGroup] emits comes from a rule of the group. *)
Lemma flat_map_emitted_In (text : FilteringEventRuleData -> option string)
    (nameOf : FilteringEventRuleData -> option string) rules t :
  In t (flat_map (fun rule => Spec.emitted (text rule) (nameOf rule)) rules) ->
  exists rule, In rule rules /\ In t (Spec.emitted (text rule) (nameOf rule)).
Proof.
  rewrite in_flat_map. intros [rule [Hin Ht]]. exists rule. split; assumption.
Qed.

(** The texts of [getRulesData], as one pass over the authoritative group;
    the rule of an allowlisted site emits nothing. *)
Lemma getRulesData_applied_incl event filtersMetadata t :
  In t (appliedRuleTexts (getRulesData event filtersMetadata)) ->
  exists rule,
    In rule (Spec.authoritativeGroup event)
    /\ In t (Spec.emitted (appliedRuleText rule)
               (Spec.nameInGroup (List.length (Spec.authoritativeGroup event))
                  (groupFilterName filtersMetadata rule))).
Proof.
  unfold RequestInfo.getRulesData, Spec.authoritativeGroup.
  destruct (replaceRules event) as [rules|]; cbn [Js.truthyOptObject].
  - rewrite addRuleGroup_applied. apply flat_map_emitted_In.
  - destruct (stealthAllowlistRules event) as [rules|]; cbn [Js.truthyOptObject].
    + rewrite addRuleGroup_applied. apply flat_map_emitted_In.
    + destruct (requestRule event) as [rule|]; [|simpl; contradiction].
      destruct (allowlistRule rule && documentLevelRule rule
                && (filterId rule =? AllowlistFilterId)); [simpl; contradiction|].
      rewrite addRule_applied; simpl. intros H. exists rule. split; [now left | exact H].
Qed.

Lemma getRulesData_original_incl event filtersMetadata t :
  In t (originalRuleTexts (getRulesData event filtersMetadata)) ->
  exists rule,
    In rule (Spec.authoritativeGroup event)
    /\ In t (Spec.emitted (originalRuleText rule)
               (Spec.nameInGroup (List.length (Spec.authoritativeGroup event))
                  (groupFilterName filtersMetadata rule))).
Proof.
  unfold RequestInfo.getRulesData, Spec.authoritativeGroup.
  destruct (replaceRules event) as [rules|]; cbn [Js.truthyOptObject].
  - rewrite addRuleGroup_original. apply flat_map_emitted_In.
  - destruct (stealthAllowlistRules event) as [rules|]; cbn [Js.truthyOptObject].
    + rewrite addRuleGroup_original. apply flat_map_emitted_In.
    + destruct (requestRule event) as [rule|]; [|simpl; contradiction].
      destruct (allowlistRule rule && documentLevelRule rule
                && (filterId rule =? AllowlistFilterId)); [simpl; contradiction|].
      rewrite addRule_original; simpl. intros H. exists rule. split; [now left | exact H].
Qed.

(** The guard of [getRulesData] on the rule of an allowlisted site. *)
Lemma siteAllowlistRule_guard rule :
  allowlistRule rule && documentLevelRule rule
  && (filterId rule =? AllowlistFilterId) = true
  <-> Spec.isSiteAllowlistRule AllowlistFilterId rule.
Proof.
  unfold Spec.isSiteAllowlistRule.
  rewrite !andb_true_iff, Z.eqb_eq. tauto.
Qed.

(** C1 (amended): [getRulesData] consults the three rule groups in a fixed
    precedence decided by presence.  When [replaceRules] is present, be it
    the empty array, that group alone is processed and the result returned,
    whatever [stealthAllowlistRules] and [requestRule] hold; else when
    [stealthAllowlistRules] is present, that group alone is processed and
    the result returned, whatever [requestRule] holds; else [requestRule],
    if present, is processed alone: the result is exactly what [addRule]
    adds for that rule, without filter name, to the empty result, and the
    empty result when there is no [requestRule]; the one exception is the
    rule of an allowlisted site (an allowlist rule at document level from
    the allowlist filter), for which the result is empty.  Every text of the
    result comes from a rule of that one group: texts of different groups
    are never merged. *)
Theorem getRulesData_precedence_by_presence event filtersMetadata :
  (forall rules,
     replaceRules event = Some rules ->
     getRulesData event filtersMetadata
     = addRuleGroup filtersMetadata (Some rules) emptyResult)
  /\ (forall rules,
        replaceRules event = None ->
        stealthAllowlistRules event = Some rules ->
        getRulesData event filtersMetadata
        = addRuleGroup filtersMetadata (Some rules) emptyResult)
  /\ (replaceRules event = None ->
      stealthAllowlistRules event = None ->
      requestRule event = None ->
      getRulesData event filtersMetadata = emptyResult)
  /\ (forall rule,
        replaceRules event = None ->
        stealthAllowlistRules event = None ->
        requestRule event = Some rule ->
        ~ Spec.isSiteAllowlistRule AllowlistFilterId rule ->
        getRulesData event filtersMetadata = addRule rule None emptyResult)
  /\ (forall rule,
        replaceRules event = None ->
        stealthAllowlistRules event = None ->
        requestRule event = Some rule ->
        Spec.isSiteAllowlistRule AllowlistFilterId rule ->
        getRulesData event filtersMetadata = emptyResult)
  /\ (forall t,
        In t (appliedRuleTexts (getRulesData event filtersMetadata)) ->
        exists rule,
          In rule (Spec.authoritativeGroup event)
          /\ In t (Spec.emitted (appliedRuleText rule)
                     (Spec.nameInGroup (List.length (Spec.authoritativeGroup event))
                        (groupFilterName filtersMetadata rule))))
  /\ (forall t,
        In t (originalRuleTexts (getRulesData event filtersMetadata)) ->
        exists rule,
          In rule (Spec.authoritativeGroup event)
          /\ In t (Spec.emitted (originalRuleText rule)
                     (Spec.nameInGroup (List.length (Spec.authoritativeGroup event))
                        (groupFilterName filtersMetadata rule)))).
Proof.
  split; [|split; [|split; [|split; [|split; [|split]]]]].
  - intros rules H. unfold RequestInfo.getRulesData. rewrite H. reflexivity.
  - intros rules H1 H2. unfold RequestInfo.getRulesData. rewrite H1, H2. reflexivity.
  - intros H1 H2 H3. unfold RequestInfo.getRulesData. rewrite H1, H2, H3.
    reflexivity.
  - intros rule H1 H2 H3 Hguard. unfold RequestInfo.getRulesData.
    rewrite H1, H2, H3; cbn [Js.truthyOptObject].
    destruct (allowlistRule rule && documentLevelRule rule
              && (filterId rule =? AllowlistFilterId)) eqn:G; [|reflexivity].
    exfalso. apply Hguard. apply siteAllowlistRule_guard. exact G.
  - intros rule H1 H2 H3 Hguard. unfold RequestInfo.getRulesData.
    rewrite H1, H2, H3; cbn [Js.truthyOptObject].
    apply siteAllowlistRule_guard in Hguard. rewrite Hguard. reflexivity.
  - apply getRulesData_applied_incl.
  - apply getRulesData_original_incl.
Qed.

(** C2 (amended): for every event without [replaceRules] and
    [stealthAllowlistRules] whose [requestRule] has a non-empty
    [appliedRuleText] and is not the rule of an allowlisted site (an
    allowlist rule at document level from the allowlist filter),
    [getRulesData] returns exactly that text, bare, in [appliedRuleTexts];
    [originalRuleTexts] is empty when the rule has no [originalRuleText]
    and holds exactly that text, bare, when it has one. *)
Theorem getRulesData_single_requestRule event filtersMetadata rule text :
  replaceRules event = None ->
  stealthAllowlistRules event = None ->
  requestRule event = Some rule ->
  appliedRuleText rule = Some text ->
  text <> "" ->
  ~ Spec.isSiteAllowlistRule AllowlistFilterId rule ->
  appliedRuleTexts (getRulesData event filtersMetadata) = [text]
  /\ (Js.truthyOptString (originalRuleText rule) = false ->
      originalRuleTexts (getRulesData event filtersMetadata) = [])
  /\ (forall original,
        originalRuleText rule = Some original ->
        original <> "" ->
        originalRuleTexts (getRulesData event filtersMetadata) = [original]).
Proof.
  intros Hreplace Hstealth Hrule Htext Hnonempty Hguard.
  unfold RequestInfo.getRulesData.
  rewrite Hreplace, Hstealth, Hrule; cbn [Js.truthyOptObject].
  destruct (allowlistRule rule && documentLevelRule rule
            && (filterId rule =? AllowlistFilterId)) eqn:G.
  { exfalso. apply Hguard. apply siteAllowlistRule_guard. exact G. }
  rewrite addRule_applied, addRule_original, Htext.
  apply JsFacts.truthyString_true in Hnonempty.
  unfold Spec.emitted; rewrite Hnonempty; simpl.
  split; [reflexivity|split].
  - destruct (originalRuleText rule) as [o|]; simpl; [|reflexivity].
    intros ->. reflexivity.
  - intros original -> Ho. apply JsFacts.truthyString_true in Ho.
    rewrite Ho. reflexivity.
Qed.

(** C3: for every event in which neither [replaceRules] nor
    [stealthAllowlistRules] holds a rule and whose [requestRule] is an
    allowlist rule at document level with the identifier of the allowlist
    filter, [getRulesData] returns both [appliedRuleTexts] and
    [originalRuleTexts] empty. *)
Theorem getRulesData_site_allowlist_rule event filtersMetadata rule :
  Spec.isNonEmpty (replaceRules event) = false ->
  Spec.isNonEmpty (stealthAllowlistRules event) = false ->
  requestRule event = Some rule ->
  allowlistRule rule = true ->
  documentLevelRule rule = true ->
  filterId rule = AllowlistFilterId ->
  appliedRuleTexts (getRulesData event filtersMetadata) = []
  /\ originalRuleTexts (getRulesData event filtersMetadata) = [].
Proof.
  intros Hreplace Hstealth Hrule Hallow Hdoc Hid.
  unfold RequestInfo.getRulesData.
  destruct (replaceRules event) as [[|r rs]|]; try discriminate Hreplace.
  - split; reflexivity.
  - destruct (stealthAllowlistRules event) as [[|r rs]|]; try discriminate Hstealth.
    + split; reflexivity.
    + cbn [Js.truthyOptObject]. rewrite Hrule, Hallow, Hdoc, Hid, Z.eqb_refl.
      split; reflexivity.
Qed.

(** C7: a group of exactly one rule emits its applied and original text
    without the filter name.  A group of more than one rule emits, for
    every rule in order, its applied and its original text in the form
    [text (filterName)] when the filter identifier resolves to a name, and
    as the bare text when resolution yields [null]; a name that is the empty
    string annotates nothing. *)
Theorem addRuleGroup_annotation filtersMetadata rules :
  (forall rule,
     rules = [rule] ->
     appliedRuleTexts (addRuleGroup filtersMetadata (Some rules) emptyResult)
     = Spec.emitted (appliedRuleText rule) None
     /\ originalRuleTexts (addRuleGroup filtersMetadata (Some rules) emptyResult)
        = Spec.emitted (originalRuleText rule) None)
  /\ ((1 < List.length rules)%nat ->
      appliedRuleTexts (addRuleGroup filtersMetadata (Some rules) emptyResult)
      = flat_map
          (fun rule => Spec.emitted (appliedRuleText rule)
                         (groupFilterName filtersMetadata rule))
          rules
      /\ originalRuleTexts (addRuleGroup filtersMetadata (Some rules) emptyResult)
         = flat_map
             (fun rule => Spec.emitted (originalRuleText rule)
                            (groupFilterName filtersMetadata rule))
             rules)
  /\ (forall text name,
        text <> "" -> name <> "" ->
        Spec.emitted (Some text) (Some name) = [text ++ " (" ++ name ++ ")"])
  /\ (forall text, text <> "" -> Spec.emitted (Some text) None = [text])
  /\ (forall text, text <> "" -> Spec.emitted (Some text) (Some "") = [text]).
Proof.
  split; [|split; [|split; [|split]]].
  - intros rule ->. rewrite addRuleGroup_applied, addRuleGroup_original; simpl.
    rewrite !app_nil_r. split; reflexivity.
  - intros Hlen. rewrite addRuleGroup_applied, addRuleGroup_original.
    destruct rules as [|r [|r' rest]]; simpl in Hlen; try lia.
    split; reflexivity.
  - intros text name Ht Hn.
    apply JsFacts.truthyString_true in Ht, Hn.
    unfold Spec.emitted. rewrite Ht, Hn. reflexivity.
  - intros text Ht. apply JsFacts.truthyString_true in Ht.
    unfold Spec.emitted. rewrite Ht. reflexivity.
  - intros text Ht. apply JsFacts.truthyString_true in Ht.
    unfold Spec.emitted. rewrite Ht. reflexivity.
Qed.

(** C10: [getRuleFilterName] looks at [requestRule] first.  When
    [requestRule] is present it returns the filter name of that rule,
    whatever [replaceRules] and [stealthAllowlistRules] hold, while
    [getRulesData] takes its texts from [replaceRules] when that is present.
    Without a [requestRule] it returns the filter name of the one rule of
    [replaceRules] when that has exactly one rule, else of the one rule of
    [stealthAllowlistRules] when that has exactly one rule, and [null] in
    every other case. *)
Theorem getRuleFilterName_precedence selectedEvent filtersMetadata :
  (forall rule,
     requestRule selectedEvent = Some rule ->
     getRuleFilterName selectedEvent filtersMetadata
     = getFilterName (Some (filterId rule)) filtersMetadata)
  /\ (forall rule rules,
        requestRule selectedEvent = Some rule ->
        replaceRules selectedEvent = Some rules ->
        getRulesData selectedEvent filtersMetadata
        = addRuleGroup filtersMetadata (Some rules) emptyResult)
  /\ (forall rule,
        requestRule selectedEvent = None ->
        replaceRules selectedEvent = Some [rule] ->
        getRuleFilterName selectedEvent filtersMetadata
        = getFilterName (Some (filterId rule)) filtersMetadata)
  /\ (forall rule,
        requestRule selectedEvent = None ->
        (forall rules, replaceRules selectedEvent = Some rules ->
                       List.length rules <> 1%nat) ->
        stealthAllowlistRules selectedEvent = Some [rule] ->
        getRuleFilterName selectedEvent filtersMetadata
        = getFilterName (Some (filterId rule)) filtersMetadata)
  /\ (requestRule selectedEvent = None ->
      (forall rules, replaceRules selectedEvent = Some rules ->
                     List.length rules <> 1%nat) ->
      (forall rules, stealthAllowlistRules selectedEvent = Some rules ->
                     List.length rules <> 1%nat) ->
      getRuleFilterName selectedEvent filtersMetadata = None).
Proof.
  assert (Hone : forall rules : option (list FilteringEventRuleData),
             (forall l, rules = Some l -> List.length l <> 1%nat) ->
             RequestInfo.hasLengthOne rules = false).
  { intros [l|] H; [|reflexivity]. unfold RequestInfo.hasLengthOne.
    apply Z.eqb_neq. specialize (H l eq_refl). lia. }
  unfold RequestInfo.getRuleFilterName.
  split; [|split; [|split; [|split]]].
  - intros rule ->. reflexivity.
  - intros rule rules _ H. unfold RequestInfo.getRulesData. rewrite H. reflexivity.
  - intros rule -> ->. reflexivity.
  - intros rule -> Hreplace ->. rewrite (Hone _ Hreplace). reflexivity.
  - intros -> Hreplace Hstealth.
    rewrite (Hone _ Hreplace), (Hone _ Hstealth). reflexivity.
Qed.

(** [showPreviewButton] decides preview eligibility. *)
Lemma showPreviewButton_eligible event :
  showPreviewButton event = true <-> Spec.previewEligible getStatusMode event.
Proof.
  unfold RequestInfo.showPreviewButton, Spec.previewEligible.
  rewrite !andb_true_iff, !negb_true_iff.
  rewrite <- JsFacts.truthyOptString_set, <- JsFacts.truthyOptString_set,
    <- JsFacts.truthyOptBool_set.
  rewrite !not_true_iff_false.
  assert (Htype :
    match requestType event with
    | Some type => existsb (RequestType_eqb type) RequestInfo.previewableTypes
    | None => false
    end = true
    <-> exists type, requestType event = Some type
                     /\ In type [Image; Document; Subdocument; Script; Stylesheet]).
  { destruct (requestType event) as [type|].
    - split.
      + intros H. exists type. split; [reflexivity|].
        destruct type; simpl in *; try discriminate; tauto.
      + intros [type' [E Hin]]. injection E as <-.
        destruct type; simpl in *; try reflexivity.
        repeat (destruct Hin as [Hin|Hin]; [discriminate Hin|]). contradiction.
    - split; [discriminate | intros [type' [E _]]; discriminate]. }
  assert (Hstatus :
    StatusMode_eqb (getStatusMode event) BLOCKED = false
    <-> getStatusMode event <> BLOCKED).
  { destruct (getStatusMode event); simpl; split; intros H;
      try reflexivity; try discriminate; try congruence. }
  rewrite Htype, Hstatus. tauto.
Qed.

(** The buttons rendered before the preview button. *)
Lemma renderControlButtons_base event :
  exists base,
    base <> []
    /\ ~ In PREVIEW base
    /\ renderControlButtons AddedRuleState.None event
       = (base ++ previewPart event)%list.
Proof.
  unfold RequestInfo.renderControlButtons.
  destruct (requestRule event) as [rule|].
  - destruct (filterId rule =? UserFilterId).
    + destruct (allowlistRule rule), (isStealthModeRule rule);
        eexists; (split; [|split; [|reflexivity]]);
        [discriminate | simpl; intuition discriminate ..].
    + destruct (filterId rule =? AllowlistFilterId);
        [|destruct (negb (allowlistRule rule))];
        eexists; (split; [|split; [|reflexivity]]);
        [discriminate | simpl; intuition discriminate ..].
  - exists [BLOCK]. split; [discriminate|split; [|reflexivity]].
    simpl; intuition discriminate.
Qed.

(** C4: whatever the event and its [requestRule], the only button rendered
    when [addedRuleState] is [Block] is the one that removes the added
    blocking rule, and the only button rendered when it is [Unblock] is the
    one that removes the added unblocking rule; no preview button is
    rendered in either case. *)
Theorem renderControlButtons_added_rule event :
  renderControlButtons AddedRuleState.Block event = [REMOVE_ADDED_BLOCK_RULE]
  /\ renderControlButtons AddedRuleState.Unblock event = [REMOVE_ADDED_UNBLOCK_RULE]
  /\ ~ In PREVIEW (renderControlButtons AddedRuleState.Block event)
  /\ ~ In PREVIEW (renderControlButtons AddedRuleState.Unblock event).
Proof.
  repeat split; simpl; intuition discriminate.
Qed.

(** C5: with no added rule, for an event whose [requestRule] comes from the
    user filter and is an allowlist rule, the block button is rendered
    together with the button that removes the rule from the user filter
    when the rule is no stealth-mode rule, and together with the unblock
    button when it is one; the preview button follows when the event is
    preview-eligible. *)
Theorem renderControlButtons_user_allowlist event rule :
  requestRule event = Some rule ->
  filterId rule = UserFilterId ->
  allowlistRule rule = true ->
  (isStealthModeRule rule = false ->
   renderControlButtons AddedRuleState.None event
   = ([BLOCK; USER_FILTER] ++ (if showPreviewButton event then [PREVIEW] else []))%list)
  /\ (isStealthModeRule rule = true ->
      renderControlButtons AddedRuleState.None event
      = ([BLOCK; UNBLOCK] ++ (if showPreviewButton event then [PREVIEW] else []))%list).
Proof.
  intros Hrule Hid Hallow.
  unfold RequestInfo.renderControlButtons, RequestInfo.previewPart.
  rewrite Hrule, Hid, Z.eqb_refl, Hallow.
  split; intros ->; reflexivity.
Qed.

(** C6: with no added rule, for an event with no [requestRule] that is
    preview-eligible (a request type among image, document, subdocument,
    script and stylesheet, none of the element, script and cookie-name
    markers set, and a derived status other than blocked), exactly the block
    button and the preview button are rendered, in that order.  For every
    event the preview button is rendered exactly when the event is
    preview-eligible, and then it comes last, after buttons none of which is
    the preview button. *)
Theorem renderControlButtons_preview event :
  (requestRule event = None ->
   Spec.previewEligible getStatusMode event ->
   renderControlButtons AddedRuleState.None event = [BLOCK; PREVIEW])
  /\ (In PREVIEW (renderControlButtons AddedRuleState.None event)
      <-> Spec.previewEligible getStatusMode event)
  /\ (exists base,
        base <> []
        /\ ~ In PREVIEW base
        /\ renderControlButtons AddedRuleState.None event
           = (base ++ (if showPreviewButton event then [PREVIEW] else []))%list).
Proof.
  split; [|split].
  - intros Hrule Heligible. apply showPreviewButton_eligible in Heligible.
    unfold RequestInfo.renderControlButtons, RequestInfo.previewPart.
    rewrite Hrule, Heligible. reflexivity.
  - rewrite <- showPreviewButton_eligible.
    destruct (renderControlButtons_base event) as [base [_ [Hbase ->]]].
    rewrite in_app_iff. unfold RequestInfo.previewPart.
    destruct (showPreviewButton event); simpl; intuition discriminate.
  - exact (renderControlButtons_base event).
Qed.

(** C8: a rule without an applied text adds nothing to [appliedRuleTexts],
    and a rule without an original text adds nothing to [originalRuleTexts];
    a group yields as many applied texts as it has rules with one.  The
    buttons are defined for every event and every added-rule state: at least
    one button is rendered, and with no added rule and no [requestRule] the
    first one is the block button. *)
Theorem missing_texts_and_default_button :
  (forall rule filterName result,
     Js.truthyOptString (appliedRuleText rule) = false ->
     appliedRuleTexts (addRule rule filterName result) = appliedRuleTexts result)
  /\ (forall rule filterName result,
        Js.truthyOptString (originalRuleText rule) = false ->
        originalRuleTexts (addRule rule filterName result)
        = originalRuleTexts result)
  /\ (forall filtersMetadata rules,
        List.length
          (appliedRuleTexts (addRuleGroup filtersMetadata (Some rules) emptyResult))
        = List.length
            (filter (fun rule => Js.truthyOptString (appliedRuleText rule)) rules)
        /\ List.length
             (originalRuleTexts (addRuleGroup filtersMetadata (Some rules) emptyResult))
           = List.length
               (filter (fun rule => Js.truthyOptString (originalRuleText rule)) rules))
  /\ (forall addedRuleState event,
        renderControlButtons addedRuleState event <> [])
  /\ (forall event,
        requestRule event = None ->
        renderControlButtons AddedRuleState.None event
        = BLOCK :: (if showPreviewButton event then [PREVIEW] else [])).
Proof.
  assert (Hnone : forall text filterName,
             Js.truthyOptString text = false -> Spec.emitted text filterName = []).
  { intros [t|] filterName; simpl; [|reflexivity]. intros ->. reflexivity. }
  assert (Hlen : forall text filterName,
             List.length (Spec.emitted text filterName)
             = if Js.truthyOptString text then 1%nat else 0%nat).
  { intros [t|] filterName; simpl; [|reflexivity].
    destruct (Js.truthyString t); [|reflexivity].
    destruct filterName as [n|]; [destruct (Js.truthyString n)|]; reflexivity. }
  assert (Hcount : forall (text : FilteringEventRuleData -> option string)
                          (nameOf : FilteringEventRuleData -> option string) rules,
             List.length
               (flat_map (fun rule => Spec.emitted (text rule) (nameOf rule)) rules)
             = List.length (filter (fun rule => Js.truthyOptString (text rule)) rules)).
  { intros text nameOf rules. induction rules as [|rule rules IH]; [reflexivity|].
    simpl. rewrite length_app, Hlen, IH.
    destruct (Js.truthyOptString (text rule)); reflexivity. }
  split; [|split; [|split; [|split]]].
  - intros rule filterName result H.
    rewrite addRule_applied, (Hnone _ _ H). apply app_nil_r.
  - intros rule filterName result H.
    rewrite addRule_original, (Hnone _ _ H). apply app_nil_r.
  - intros filtersMetadata rules.
    rewrite addRuleGroup_applied, addRuleGroup_original. split; apply Hcount.
  - intros [| |] event; try discriminate.
    destruct (renderControlButtons_base event) as [base [Hne [_ ->]]].
    destruct base; [contradiction|discriminate].
  - intros event Hrule. unfold RequestInfo.renderControlButtons. rewrite Hrule.
    reflexivity.
Qed.

End Facts.

End RequestInfoFacts.

(** ** The badge of the tab icon *)

Module IconsApiFacts.

Import IconsApi.

(** [String] of a small count. *)
Example String_7 : String_ 7 = "7".
Proof. reflexivity. Qed.

Example String_42 : String_ 42 = "42".
Proof. reflexivity. Qed.

Example String_99 : String_ 99 = "99".
Proof. reflexivity. Qed.

(** The three bytes of [infinitySign] are the UTF-8 form of the one
    character U+221E. *)
Lemma infinitySign_code_point :
  exists b1 b2 b3,
    infinitySign = String b1 (String b2 (String b3 EmptyString))
    /\ ((N_of_ascii b1 - 224) * 4096
        + (N_of_ascii b2 - 128) * 64
        + (N_of_ascii b3 - 128) = 0x221E)%N.
Proof.
  do 3 eexists. split; reflexivity.
Qed.

Section Facts.

Variable ImageData : Type.
Variable DisableShowPageStats : bool.
Variable areFilterLimitsExceeded : bool.
Variable getURL : string -> string.
Variable getCurrentNotification : Settled (option Notification).
Variable IS_MV3 : bool.
Variable getIconImageData : Icon -> Settled ImageData.
Variable rejects : Call ImageData -> bool.

Local Abbreviation blocked := (IconsApi.blocked DisableShowPageStats).
Local Abbreviation countBadge := (IconsApi.countBadge DisableShowPageStats).
Local Abbreviation badge := (IconsApi.badge DisableShowPageStats).
Local Abbreviation stateIcon := (IconsApi.stateIcon areFilterLimitsExceeded getURL).
Local Abbreviation callsOf :=
  (IconsApi.callsOf ImageData DisableShowPageStats areFilterLimitsExceeded getURL
     getCurrentNotification IS_MV3 getIconImageData rejects).



End Facts.

End IconsApiFacts.

(** ** The theorems on the sample events *)

Module OnSamples.

Import Samples.

Local Abbreviation getRulesData :=
  (RequestInfo.getRulesData getFilterName AllowlistFilterId).
Local Abbreviation renderControlButtons :=
  (RequestInfo.renderControlButtons getStatusMode UserFilterId AllowlistFilterId).

(** C1, as stated, fails twice.  On an event whose [replaceRules] is the
    empty array the array is present, so [getRulesData] processes it and
    returns no text, though no group holds a rule and the event has a
    [requestRule] with a text.  On an allowlisted document, which has no
    group at all, [getRulesData] returns no text either, though processing
    its [requestRule] would add the text of the rule. *)
Lemma nonEmptyPrecedence_fails :
  (appliedRuleTexts (getRulesData emptyReplaceEvent filtersMetadata) = []
   /\ appliedRuleTexts (Spec.requestRuleAlone emptyReplaceEvent)
      = ["||ads.example.org^"]
   /\ ~ Spec.nonEmptyPrecedence getFilterName AllowlistFilterId
          emptyReplaceEvent filtersMetadata)
  /\ (appliedRuleTexts (getRulesData allowlistedEvent filtersMetadata) = []
      /\ appliedRuleTexts (Spec.requestRuleAlone allowlistedEvent)
         = ["@@//example.org$document"]
      /\ ~ Spec.nonEmptyPrecedence getFilterName AllowlistFilterId
             allowlistedEvent filtersMetadata).
Proof.
  split; (split; [reflexivity|split; [reflexivity|]]);
    intros [_ [_ H]]; specialize (H eq_refl eq_refl); discriminate H.
Qed.

(** C1 on the samples: a replace rule is processed alone though the event
    has a [requestRule] with a text; the empty [replaceRules] array is
    processed alone; the [requestRule] of an event without groups is
    processed alone; the rule of an allowlisted site gives the empty
    result. *)
Lemma getRulesData_precedence_by_presence_witness :
  getRulesData mixedEvent filtersMetadata
  = {| appliedRuleTexts := ["||example.org^$replace=/a/b/"];
       originalRuleTexts := ["example.org$$replace"] |}
  /\ getRulesData emptyReplaceEvent filtersMetadata = RequestInfo.emptyResult
  /\ getRulesData blockedScriptEvent filtersMetadata
     = {| appliedRuleTexts := ["||ads.example.org^"]; originalRuleTexts := [] |}
  /\ getRulesData allowlistedEvent filtersMetadata = RequestInfo.emptyResult.
Proof.
  assert (Hblocking :
            ~ Spec.isSiteAllowlistRule AllowlistFilterId blockingRule).
  { intros [H _]. discriminate H. }
  assert (Hsite : Spec.isSiteAllowlistRule AllowlistFilterId siteAllowlistRule).
  { repeat split. }
  split; [|split; [|split]].
  - exact (proj1 (RequestInfoFacts.getRulesData_precedence_by_presence
                    getFilterName AllowlistFilterId mixedEvent filtersMetadata)
                 [convertedRule] eq_refl).
  - exact (proj1 (RequestInfoFacts.getRulesData_precedence_by_presence
                    getFilterName AllowlistFilterId emptyReplaceEvent
                    filtersMetadata)
                 [] eq_refl).
  - exact (proj1 (proj2 (proj2 (proj2
             (RequestInfoFacts.getRulesData_precedence_by_presence
                getFilterName AllowlistFilterId blockedScriptEvent
                filtersMetadata))))
             blockingRule eq_refl eq_refl eq_refl Hblocking).
  - exact (proj1 (proj2 (proj2 (proj2 (proj2
             (RequestInfoFacts.getRulesData_precedence_by_presence
                getFilterName AllowlistFilterId allowlistedEvent
                filtersMetadata)))))
             siteAllowlistRule eq_refl eq_refl eq_refl Hsite).
Defined.

(** C2, as stated, fails: the text of the rule of an allowlisted site is not
    shown, though it is the single [requestRule] of the event and not
    empty. *)
Lemma requestRuleTextShown_fails :
  requestRule allowlistedEvent = Some siteAllowlistRule
  /\ appliedRuleText siteAllowlistRule = Some "@@//example.org$document"
  /\ appliedRuleTexts (getRulesData allowlistedEvent filtersMetadata) = []
  /\ ~ Spec.requestRuleTextShown getFilterName AllowlistFilterId
         allowlistedEvent filtersMetadata.
Proof.
  split; [reflexivity|split; [reflexivity|split; [reflexivity|]]].
  intros H.
  destruct (H siteAllowlistRule "@@//example.org$document"
              eq_refl eq_refl eq_refl eq_refl) as [Happlied _].
  - discriminate.
  - discriminate Happlied.
Qed.

(** C2 on a blocked script. *)
Lemma getRulesData_single_requestRule_witness :
  appliedRuleTexts (getRulesData blockedScriptEvent filtersMetadata)
  = ["||ads.example.org^"]
  /\ originalRuleTexts (getRulesData blockedScriptEvent filtersMetadata) = [].
Proof.
  destruct (RequestInfoFacts.getRulesData_single_requestRule
              getFilterName AllowlistFilterId blockedScriptEvent filtersMetadata
              blockingRule "||ads.example.org^"
              eq_refl eq_refl eq_refl eq_refl) as [Happlied [Hnone _]].
  - discriminate.
  - intros [H _]. discriminate H.
  - split; [exact Happlied | exact (Hnone eq_refl)].
Defined.

(** C3 on an allowlisted document. *)
Lemma getRulesData_site_allowlist_rule_witness :
  appliedRuleTexts (getRulesData allowlistedEvent filtersMetadata) = []
  /\ originalRuleTexts (getRulesData allowlistedEvent filtersMetadata) = [].
Proof.
  exact (RequestInfoFacts.getRulesData_site_allowlist_rule
           getFilterName AllowlistFilterId allowlistedEvent filtersMetadata
           siteAllowlistRule eq_refl eq_refl eq_refl eq_refl eq_refl eq_refl).
Defined.

(** C7 on a group of two replace rules, the filter of the second unknown
    to the metadata. *)
Lemma addRuleGroup_annotation_witness :
  appliedRuleTexts (getRulesData replacedEvent filtersMetadata)
  = ["||example.org^$replace=/a/b/ (AdGuard Tracking Protection filter)";
     "||cdn.example.org^$replace=/x/y/"]
  /\ originalRuleTexts (getRulesData replacedEvent filtersMetadata)
     = ["example.org$$replace (AdGuard Tracking Protection filter)"].
Proof.
  assert (Hlen : (1 < List.length [convertedRule; unlistedRule])%nat)
    by (simpl; lia).
  exact (proj1 (proj2 (RequestInfoFacts.addRuleGroup_annotation
                         getFilterName filtersMetadata
                         [convertedRule; unlistedRule])) Hlen).
Defined.

(** C10 on an event with a [requestRule] and a replace rule: the name is
    that of the filter of [requestRule], the text that of the replace
    rule. *)
Lemma getRuleFilterName_precedence_witness :
  RequestInfo.getRuleFilterName getFilterName mixedEvent filtersMetadata
  = Some "AdGuard Base filter"
  /\ appliedRuleTexts (getRulesData mixedEvent filtersMetadata)
     = ["||example.org^$replace=/a/b/"].
Proof.
  destruct (RequestInfoFacts.getRuleFilterName_precedence
              getFilterName AllowlistFilterId mixedEvent filtersMetadata)
    as [Hname [Htexts _]].
  split.
  - exact (Hname blockingRule eq_refl).
  - rewrite (Htexts blockingRule [convertedRule] eq_refl eq_refl). reflexivity.
Defined.

(** C5 on an image allowlisted by a rule of the user filter. *)
Lemma renderControlButtons_user_allowlist_witness :
  renderControlButtons AddedRuleState.None userAllowlistEvent
  = [BLOCK; USER_FILTER; PREVIEW].
Proof.
  exact (proj1 (RequestInfoFacts.renderControlButtons_user_allowlist
                  getStatusMode UserFilterId AllowlistFilterId
                  userAllowlistEvent userAllowlistRule
                  eq_refl eq_refl eq_refl) eq_refl).
Defined.

(** C6 on an image no rule applied to. *)
Lemma renderControlButtons_preview_witness :
  renderControlButtons AddedRuleState.None plainImageEvent = [BLOCK; PREVIEW].
Proof.
  apply (proj1 (RequestInfoFacts.renderControlButtons_preview
                  getStatusMode UserFilterId AllowlistFilterId plainImageEvent)).
  - reflexivity.
  - unfold Spec.previewEligible, Spec.stringMarkerSet, Spec.scriptMarkerSet.
    simpl. split; [|split; [|split; [|split]]].
    + exists Image. split; [reflexivity | now left].
    + intros [s [H _]]. discriminate H.
    + discriminate.
    + intros [s [H _]]. discriminate H.
    + discriminate.
Defined.

(** C8 on a rule without texts and on an image no rule applied to. *)
Lemma missing_texts_and_default_button_witness :
  appliedRuleTexts
    (RequestInfo.addRule textlessRule None RequestInfo.emptyResult) = []
  /\ renderControlButtons AddedRuleState.None plainImageEvent = [BLOCK; PREVIEW].
Proof.
  destruct (RequestInfoFacts.missing_texts_and_default_button
              getFilterName getStatusMode UserFilterId AllowlistFilterId)
    as [Happlied [_ [_ [_ Hdefault]]]].
  split.
  - exact (Happlied textlessRule None RequestInfo.emptyResult eq_refl).
  - exact (Hdefault plainImageEvent eq_refl).
Defined.


End OnSamples.

(** ** More on the rule texts *)

Module RulesDataInvariants.

Section Facts.

Variable getFilterName :
  option Z -> option (list FilterMetadata.t) -> option string.
Variable AllowlistFilterId : Z.

Local Abbreviation getRulesData :=
  (RequestInfo.getRulesData getFilterName AllowlistFilterId).

(** A text, alone or followed by a filter name, is not empty when the text
    is not. *)
Lemma emitted_nonempty text filterName :
  Forall (fun t => t <> "") (Spec.emitted text filterName).
Proof.
  unfold Spec.emitted.
  destruct text as [t|]; [|constructor].
  destruct t as [|a t]; simpl; [constructor|].
  destruct filterName as [n|]; [destruct (Js.truthyString n)|];
    repeat constructor; discriminate.
Qed.

Lemma flat_map_emitted_nonempty (text : FilteringEventRuleData -> option string)
    (nameOf : FilteringEventRuleData -> option string) rules :
  Forall (fun t => t <> "")
    (flat_map (fun rule => Spec.emitted (text rule) (nameOf rule)) rules).
Proof.
  induction rules as [|rule rules IH]; simpl; [constructor|].
  apply Forall_app. split; [apply emitted_nonempty | exact IH].
Qed.

(** The texts of [getRulesData] are not empty. *)
Lemma texts_nonempty event filtersMetadata :
  Forall (fun t => t <> "")
    (appliedRuleTexts (getRulesData event filtersMetadata))
  /\ Forall (fun t => t <> "")
       (originalRuleTexts (getRulesData event filtersMetadata)).
Proof.
  split; apply Forall_forall; intros t Hin.
  - destruct (RequestInfoFacts.getRulesData_applied_incl _ _ _ _ _ Hin)
      as [rule [_ Ht]].
    exact (proj1 (Forall_forall _ _) (emitted_nonempty _ _) t Ht).
  - destruct (RequestInfoFacts.getRulesData_original_incl _ _ _ _ _ Hin)
      as [rule [_ Ht]].
    exact (proj1 (Forall_forall _ _) (emitted_nonempty _ _) t Ht).
Qed.

(** X1: no text [getRulesData] returns is the empty string, in
    [appliedRuleTexts] and in [originalRuleTexts] alike, whatever the event,
    the metadata and the names of the filters. *)
Theorem getRulesData_texts_nonempty event filtersMetadata :
  Forall (fun t => t <> "")
    (appliedRuleTexts (getRulesData event filtersMetadata))
  /\ Forall (fun t => t <> "")
       (originalRuleTexts (getRulesData event filtersMetadata)).
Proof.
  exact (texts_nonempty event filtersMetadata).
Qed.

(** The texts of a rule as they are, the empty ones left out. *)
Lemma emitted_bare_In text t :
  In t (Spec.emitted text None) <-> text = Some t /\ t <> "".
Proof.
  unfold Spec.emitted. destruct text as [t0|]; simpl.
  - destruct t0 as [|a t0]; simpl.
    + split; [contradiction | intros [[= <-] H]; now apply H].
    + split.
      * intros [<-|[]]. split; [reflexivity | discriminate].
      * intros [[= <-] _]. now left.
  - split; [contradiction | intros [H _]; discriminate H].
Qed.

(** X2: without filter metadata ([filtersMetadata] is [null]) no text is
    annotated and [getFilterName] is not consulted: a group of any size
    yields the non-empty applied and original texts of its rules as they
    are, in order, and the result for an event does not depend on how
    filter names resolve. *)
Theorem getRulesData_without_metadata
    (otherGetFilterName :
       option Z -> option (list FilterMetadata.t) -> option string)
    event rules :
  appliedRuleTexts
    (RequestInfo.addRuleGroup getFilterName None (Some rules)
       RequestInfo.emptyResult)
  = flat_map (fun rule => Spec.emitted (appliedRuleText rule) None) rules
  /\ originalRuleTexts
       (RequestInfo.addRuleGroup getFilterName None (Some rules)
          RequestInfo.emptyResult)
     = flat_map (fun rule => Spec.emitted (originalRuleText rule) None) rules
  /\ getRulesData event None
     = RequestInfo.getRulesData otherGetFilterName AllowlistFilterId event None
  /\ (forall t,
        In t (appliedRuleTexts (getRulesData event None)) ->
        exists rule,
          In rule (Spec.authoritativeGroup event)
          /\ appliedRuleText rule = Some t).
Proof.
  assert (Hname : forall g n rule,
             Spec.nameInGroup n (RequestInfo.groupFilterName g None rule) = None).
  { intros g [|[|n]] rule; reflexivity. }
  assert (Hgroup : forall g l,
             RequestInfo.addRuleGroup g None (Some l) RequestInfo.emptyResult
             = {| appliedRuleTexts :=
                    flat_map (fun rule => Spec.emitted (appliedRuleText rule) None) l;
                  originalRuleTexts :=
                    flat_map (fun rule => Spec.emitted (originalRuleText rule) None) l
               |}).
  { intros g l.
    pose proof (RequestInfoFacts.addRuleGroup_applied g None l) as Ha.
    pose proof (RequestInfoFacts.addRuleGroup_original g None l) as Ho.
    destruct (RequestInfo.addRuleGroup g None (Some l) RequestInfo.emptyResult)
      as [applied original]; simpl in Ha, Ho. subst applied original.
    f_equal; apply flat_map_ext; intros rule; rewrite Hname; reflexivity. }
  split; [|split; [|split]].
  - rewrite Hgroup. reflexivity.
  - rewrite Hgroup. reflexivity.
  - unfold RequestInfo.getRulesData.
    destruct (replaceRules event) as [l|]; cbn [Js.truthyOptObject].
    { rewrite !Hgroup. reflexivity. }
    destruct (stealthAllowlistRules event) as [l|]; cbn [Js.truthyOptObject].
    { rewrite !Hgroup. reflexivity. }
    reflexivity.
  - intros t Hin.
    destruct (RequestInfoFacts.getRulesData_applied_incl _ _ _ _ _ Hin)
      as [rule [Hrule Ht]].
    exists rule. split; [exact Hrule|].
    rewrite Hname in Ht. apply emitted_bare_In in Ht. apply Ht.
Qed.

End Facts.

End RulesDataInvariants.

(** ** The names of the stealth actions *)

Module StealthActionFacts.

Import RequestInfoComponent.

Lemma toInt32_isInt32 x : isInt32 (toInt32 x).
Proof.
  unfold isInt32, toInt32.
  pose proof (Z.mod_pos_bound (x + 2 ^ 31) (2 ^ 32) ltac:(lia)).
  change (2 ^ 32) with (2 * 2 ^ 31) in *. lia.
Qed.

Lemma toInt32_id x : isInt32 x -> toInt32 x = x.
Proof.
  unfold isInt32, toInt32. intros H.
  rewrite Z.mod_small; [lia|].
  change (2 ^ 32) with (2 * 2 ^ 31). lia.
Qed.

(** Bits that fit in 31 bits stay there under [Z.land] and [Z.lor]. *)
Lemma small_land_ones x : 0 <= x < 2 ^ 31 -> Z.land x (Z.ones 31) = x.
Proof.
  intros H. rewrite Z.land_ones by lia. apply Z.mod_small. exact H.
Qed.

Lemma land_small x c : 0 <= c < 2 ^ 31 -> 0 <= Z.land x c < 2 ^ 31.
Proof.
  intros H. split.
  - apply Z.land_nonneg. right. lia.
  - rewrite <- (small_land_ones c H), Z.land_assoc, Z.land_ones by lia.
    apply Z.mod_pos_bound. lia.
Qed.

Lemma lor_small x c :
  0 <= x < 2 ^ 31 -> 0 <= c < 2 ^ 31 -> 0 <= Z.lor x c < 2 ^ 31.
Proof.
  intros Hx Hc. split.
  - apply Z.lor_nonneg. lia.
  - rewrite <- (small_land_ones x Hx), <- (small_land_ones c Hc).
    rewrite <- Z.land_lor_distr_l, Z.land_ones by lia.
    apply Z.mod_pos_bound. lia.
Qed.

(** [x & y] of two 32-bit integers is a 32-bit integer. *)
Lemma land_isInt32 x c : isInt32 x -> isInt32 c -> isInt32 (Z.land x c).
Proof.
  unfold isInt32. intros Hx Hc.
  destruct (Z.le_gt_cases 0 c) as [Hc0|Hc0].
  { pose proof (land_small x c ltac:(lia)). lia. }
  destruct (Z.le_gt_cases 0 x) as [Hx0|Hx0].
  { rewrite Z.land_comm. pose proof (land_small c x ltac:(lia)). lia. }
  pose proof (lor_small (Z.lnot x) (Z.lnot c)) as H.
  rewrite <- Z.lnot_land in H. unfold Z.lnot in H.
  specialize (H ltac:(lia) ltac:(lia)). lia.
Qed.

Lemma bitAnd_isInt32 x y : isInt32 (bitAnd x y).
Proof.
  apply land_isInt32; apply toInt32_isInt32.
Qed.

(** What [filter(identity)] keeps of a mapped array. *)
Lemma filterIdentity_map_In {A : Type} (f : A -> option string) l n :
  In n (filterIdentity (map f l))
  <-> exists v, In v l /\ f v = Some n /\ n <> "".
Proof.
  unfold filterIdentity. rewrite in_flat_map. split.
  - intros [o [Ho Hn]]. apply in_map_iff in Ho. destruct Ho as [v [<- Hv]].
    exists v. split; [exact Hv|].
    destruct (f v) as [s|]; [|contradiction].
    destruct (Js.truthyString s) eqn:Hs; [|contradiction].
    destruct Hn as [<-|[]]. split; [reflexivity|].
    now apply JsFacts.truthyString_true.
  - intros [v [Hv [Hf Hn]]]. exists (f v). split; [now apply in_map|].
    rewrite Hf. apply JsFacts.truthyString_true in Hn. rewrite Hn. now left.
Qed.


(** Joining strings none of which is empty gives the empty string only for
    no string at all. *)
Lemma concat_nonempty sep l :
  l <> [] -> Forall (fun s => s <> "") l -> String.concat sep l <> "".
Proof.
  destruct l as [|s l]; [contradiction|]. intros _ H.
  apply Forall_inv in H. destruct s as [|a s]; [contradiction|].
  destruct l; simpl; discriminate.
Qed.

Section Facts.

Variable ext : Collaborators.

Local Abbreviation stealthActionNamesOf :=
  (RequestInfoComponent.stealthActionNamesOf ext).
Local Abbreviation getStealthActionNames :=
  (RequestInfoComponent.getStealthActionNames ext).

(** A name is listed when its action is of the enumeration, every bit of the
    action is set in the mask, and the action has a name that is not
    empty. *)
Lemma stealthActionNamesOf_In actions n :
  In n (stealthActionNamesOf actions)
  <-> exists action,
        In action (StealthActionsValues ext)
        /\ bitAnd actions action = action
        /\ StealthActionNames ext action = Some n
        /\ n <> "".
Proof.
  unfold RequestInfoComponent.stealthActionNamesOf.
  rewrite filterIdentity_map_In. split.
  - intros [action [Hin [Hf Hn]]]. exists action. split; [exact Hin|].
    destruct (Z.eqb_spec (bitAnd actions action) action) as [E|E];
      [|discriminate Hf].
    repeat split; assumption.
  - intros [action [Hin [E [Hname Hn]]]]. exists action.
    split; [exact Hin|]. rewrite E, Z.eqb_refl. split; assumption.
Qed.


(** X4: the names listed grow with the mask.  When every bit of the mask
    [actions] is set in the mask [more], every name listed for [actions] is
    listed for [more]. *)
Theorem stealthActionNamesOf_monotone actions more :
  bitAnd actions more = toInt32 actions ->
  incl (stealthActionNamesOf actions) (stealthActionNamesOf more).
Proof.
  intros Hsub n Hn. apply stealthActionNamesOf_In in Hn.
  destruct Hn as [action [Hin [Hbits [Hname Hne]]]].
  apply stealthActionNamesOf_In. exists action.
  split; [exact Hin|split; [|split; assumption]].
  assert (Haction : toInt32 action = action).
  { apply toInt32_id. rewrite <- Hbits. apply bitAnd_isInt32. }
  unfold bitAnd in *. rewrite Haction in *.
  rewrite <- Hbits at 1.
  rewrite Z.land_assoc, (Z.land_comm (toInt32 more)), Hsub. exact Hbits.
Qed.

End Facts.

End StealthActionFacts.

(** ** The buttons and the status of the component *)

Module ControlButtonFacts.

Import RequestInfoComponent.

Section Facts.

Variable ext : Collaborators.

Local Abbreviation renderControlButtons :=
  (RequestInfo.renderControlButtons (getStatusMode ext) (UserFilterId ext)
     (AllowlistFilterId ext)).
Local Abbreviation showPreviewButton :=
  (RequestInfo.showPreviewButton (getStatusMode ext)).

(** The class that paints a button red. *)
Local Abbreviation isRed :=
  (fun props : ButtonProps =>
     match className props with
     | Some c => String.eqb c "request-modal__button--red"
     | None => false
     end).

Ltac rows e :=
  unfold RequestInfo.renderControlButtons, RequestInfo.previewPart;
  destruct (requestRule e) as [rule|];
  [ destruct (filterId rule =? UserFilterId ext);
    [ destruct (allowlistRule rule), (isStealthModeRule rule)
    | destruct (filterId rule =? AllowlistFilterId ext);
      [ | destruct (allowlistRule rule) ] ]
  | ];
  destruct (RequestInfo.showPreviewButton (getStatusMode ext) e); simpl.

(** X5: whatever the event and the added-rule state, [renderControlButtons]
    renders one, two or three buttons, no button twice and no two buttons
    with the same title key, at most one of them red, and each of them
    disabled exactly when an action has been submitted. *)
Theorem renderControlButtons_row isActionSubmitted addedRuleState e :
  NoDup (renderControlButtons addedRuleState e)
  /\ (1 <= List.length (renderControlButtons addedRuleState e) <= 3)%nat
  /\ NoDup (map (fun key => buttonTitleKey (BUTTON_MAP e key))
              (renderControlButtons addedRuleState e))
  /\ (List.length
        (filter (fun key => isRed (BUTTON_MAP e key))
           (renderControlButtons addedRuleState e)) <= 1)%nat
  /\ Forall (fun button => disabled button = isActionSubmitted)
       (controlButtons ext isActionSubmitted addedRuleState e).
Proof.
  assert (Hdisabled :
    Forall (fun button => disabled button = isActionSubmitted)
      (controlButtons ext isActionSubmitted addedRuleState e)).
  { unfold controlButtons. apply Forall_forall. intros button Hin.
    apply in_map_iff in Hin. destruct Hin as [key [<- _]]. reflexivity. }
  split; [|split; [|split; [|split; [|exact Hdisabled]]]];
    clear Hdisabled; destruct addedRuleState; try rows e;
    simpl; try lia;
    repeat (constructor; [simpl; intuition discriminate|]); constructor.
Qed.

(** X6: with no added rule, the block button is rendered exactly when no
    rule applied to the request or the rule is an allowlist rule that comes
    from the user filter or from a filter other than the allowlist filter;
    the unblock button exactly for a stealth-mode rule of the user filter
    and for a rule that is no allowlist rule and comes from neither the
    user filter nor the allowlist filter; the remove-from-allowlist button
    exactly for a rule of the allowlist filter (when that is not also the
    user filter); the remove-from-user-filter button exactly for a rule of
    the user filter that is no stealth-mode rule. *)
Theorem renderControlButtons_offered e :
  (In BLOCK (renderControlButtons AddedRuleState.None e)
   <-> requestRule e = None
       \/ exists rule,
            requestRule e = Some rule
            /\ allowlistRule rule = true
            /\ (filterId rule = UserFilterId ext
                \/ filterId rule <> AllowlistFilterId ext))
  /\ (In UNBLOCK (renderControlButtons AddedRuleState.None e)
      <-> exists rule,
            requestRule e = Some rule
            /\ ((filterId rule = UserFilterId ext
                 /\ isStealthModeRule rule = true)
                \/ (filterId rule <> UserFilterId ext
                    /\ filterId rule <> AllowlistFilterId ext
                    /\ allowlistRule rule = false)))
  /\ (In ALLOWLIST (renderControlButtons AddedRuleState.None e)
      <-> exists rule,
            requestRule e = Some rule
            /\ filterId rule <> UserFilterId ext
            /\ filterId rule = AllowlistFilterId ext)
  /\ (In USER_FILTER (renderControlButtons AddedRuleState.None e)
      <-> exists rule,
            requestRule e = Some rule
            /\ filterId rule = UserFilterId ext
            /\ isStealthModeRule rule = false).
Proof.
  unfold RequestInfo.renderControlButtons, RequestInfo.previewPart.
  destruct (requestRule e) as [rule|].
  - assert (Hrule : forall P : FilteringEventRuleData -> Prop,
               (exists r, Some rule = Some r /\ P r) <-> P rule).
    { intros P. split.
      - intros [r [[= <-] H]]. exact H.
      - intros H. exists rule. split; [reflexivity|exact H]. }
    rewrite !Hrule.
    destruct (Z.eqb_spec (filterId rule) (UserFilterId ext)) as [Hu|Hu];
      [ destruct (allowlistRule rule), (isStealthModeRule rule)
      | destruct (Z.eqb_spec (filterId rule) (AllowlistFilterId ext)) as [Ha|Ha];
        [ | destruct (allowlistRule rule) ] ];
      destruct (RequestInfo.showPreviewButton (getStatusMode ext) e); simpl;
      repeat split; intros; intuition (try discriminate; try congruence).
  - destruct (RequestInfo.showPreviewButton (getStatusMode ext) e); simpl;
      repeat split; intros;
      repeat match goal with
             | H : exists _, _ |- _ => destruct H as [? [? _]]
             end;
      intuition (try discriminate; try congruence).
Qed.

(** With no added rule the preview button is rendered exactly when
    [showPreviewButton] holds. *)
Lemma preview_rendered e :
  In PREVIEW (renderControlButtons AddedRuleState.None e)
  <-> showPreviewButton e = true.
Proof.
  destruct (RequestInfoFacts.renderControlButtons_base
              (getStatusMode ext) (UserFilterId ext) (AllowlistFilterId ext) e)
    as [base [_ [Hbase ->]]].
  rewrite in_app_iff. unfold RequestInfo.previewPart.
  destruct (RequestInfo.showPreviewButton (getStatusMode ext) e); simpl;
    intuition discriminate.
Qed.

(** X7: the preview button is never rendered while the filtering status
    shown is blocked.  The button that removes the added blocking rule is
    rendered exactly when a blocking rule has been added, and the status
    shown is then blocked; the button that removes the added unblocking rule
    is rendered exactly when an unblocking rule has been added, and the
    status shown is then allowed. *)
Theorem status_agrees_with_buttons addedRuleState selectedEvent :
  (In PREVIEW (renderControlButtons addedRuleState (event selectedEvent)) ->
   getFilterStatusMode ext addedRuleState selectedEvent <> BLOCKED)
  /\ (In REMOVE_ADDED_BLOCK_RULE
        (renderControlButtons addedRuleState (event selectedEvent))
      <-> addedRuleState = AddedRuleState.Block)
  /\ (addedRuleState = AddedRuleState.Block ->
      getFilterStatusMode ext addedRuleState selectedEvent = BLOCKED)
  /\ (In REMOVE_ADDED_UNBLOCK_RULE
        (renderControlButtons addedRuleState (event selectedEvent))
      <-> addedRuleState = AddedRuleState.Unblock)
  /\ (addedRuleState = AddedRuleState.Unblock ->
      getFilterStatusMode ext addedRuleState selectedEvent = ALLOWED).
Proof.
  split; [|split; [|split; [|split]]].
  - destruct addedRuleState; simpl; try (intuition discriminate).
    intros Hin. apply preview_rendered in Hin.
    apply RequestInfoFacts.showPreviewButton_eligible in Hin. apply Hin.
  - destruct addedRuleState; try rows (event selectedEvent);
      simpl; intuition discriminate.
  - intros ->. reflexivity.
  - destruct addedRuleState; try rows (event selectedEvent);
      simpl; intuition discriminate.
  - intros ->. reflexivity.
Qed.

End Facts.

End ControlButtonFacts.

(** ** The parts of the request details *)

Module InfoPartFacts.

Import RequestInfoComponent.

(** The parts a list of candidates is rendered to, when every candidate
    renders to at most one part that carries its own name. *)
Lemma map_flat_map_option {A B : Type} (f : A -> option B) (g : B -> A) l :
  (forall a b, f a = Some b -> g b = a) ->
  map g (flat_map (fun a => match f a with Some b => [b] | None => [] end) l)
  = filter (fun a => match f a with Some _ => true | None => false end) l.
Proof.
  intros Hg. induction l as [|a l IH]; simpl; [reflexivity|].
  rewrite map_app, IH. destruct (f a) as [b|] eqn:E; simpl; [|reflexivity].
  rewrite (Hg a b E). reflexivity.
Qed.

Section Facts.

Variable ext : Collaborators.
Variable filtersMetadata : option (list FilterMetadata.t).
Variable selectedEvent : SelectedEvent.

Local Abbreviation rulesData :=
  (RequestInfoComponent.rulesData ext filtersMetadata selectedEvent).
Local Abbreviation eventPartsMap :=
  (RequestInfoComponent.eventPartsMap ext filtersMetadata selectedEvent).
Local Abbreviation renderPart := (RequestInfoComponent.renderPart ext selectedEvent).
Local Abbreviation renderedInfo :=
  (RequestInfoComponent.renderedInfo ext filtersMetadata selectedEvent).

Local Abbreviation rendering :=
  (RequestInfoComponent.rendering ext filtersMetadata selectedEvent).

Lemma renderedInfo_rendering :
  renderedInfo
  = flat_map (fun id => match rendering id with Some p => [p] | None => [] end)
      (infoElements selectedEvent).
Proof.
  unfold RequestInfoComponent.renderedInfo, RequestInfoComponent.rendering.
  apply flat_map_ext. intros id. destruct (eventPartsMap id); reflexivity.
Qed.

Lemma rendering_part id p : rendering id = Some p -> part p = id.
Proof.
  unfold RequestInfoComponent.rendering, RequestInfoComponent.renderPart.
  destruct (eventPartsMap id) as [eventPart|]; [|discriminate].
  destruct (data eventPart) as [d|]; [|discriminate].
  destruct (negb (truthyData (Some d))); [discriminate|].
  intros [= <-]. reflexivity.
Qed.

Lemma renderedInfo_In p :
  In p renderedInfo
  <-> In (part p) (infoElements selectedEvent) /\ rendering (part p) = Some p.
Proof.
  rewrite renderedInfo_rendering, in_flat_map. split.
  - intros [id [Hid Hp]]. destruct (rendering id) as [q|] eqn:E; [|contradiction].
    destruct Hp as [<-|[]]. rewrite (rendering_part _ _ E). split; assumption.
  - intros [Hid Hp]. exists (part p). split; [exact Hid|]. rewrite Hp. now left.
Qed.

Lemma renderedInfo_parts_filter :
  map part renderedInfo
  = filter (fun id => match rendering id with Some _ => true | None => false end)
      (infoElements selectedEvent).
Proof.
  rewrite renderedInfo_rendering. apply map_flat_map_option.
  intros id p H. apply rendering_part. exact H.
Qed.

Lemma infoElements_NoDup : NoDup (infoElements selectedEvent).
Proof.
  unfold infoElements.
  destruct (requestRule (event selectedEvent)) as [rule|];
    [destruct (cookieRule rule)|];
    repeat (constructor; [simpl; intuition discriminate|]); constructor.
Qed.

(** The data of a part: an array for the assumed rules only, and then the
    applied texts, of which there is one at least. *)
Lemma eventPartsMap_Texts id eventPart l :
  eventPartsMap id = Some eventPart ->
  data eventPart = Some (Texts l) ->
  id = ASSUMED_RULE /\ l = appliedRuleTexts rulesData /\ l <> [].
Proof.
  unfold RequestInfoComponent.eventPartsMap.
  destruct id; try (intros [= <-]; simpl;
    match goal with
    | |- option_map Text ?o = _ -> _ => destruct o; discriminate
    end).
  - intros [= <-]; simpl.
    destruct (appliedRuleTexts rulesData) as [|t rest]; simpl; [discriminate|].
    intros [= <-]. repeat split. discriminate.
  - destruct (0 <? _); [|discriminate]. intros [= <-]. discriminate.
Qed.

(** The texts of a rendered part. *)
Lemma rendering_texts id p :
  rendering id = Some p ->
  texts p <> [] /\ Forall (fun t => t <> "") (texts p).
Proof.
  unfold RequestInfoComponent.rendering.
  destruct (eventPartsMap id) as [eventPart|] eqn:Hmap; [|discriminate].
  unfold RequestInfoComponent.renderPart.
  destruct (data eventPart) as [d|] eqn:Hdata; [|discriminate].
  destruct (truthyData (Some d)) eqn:Htruthy; simpl; [|discriminate].
  intros [= <-]; simpl. destruct d as [s|l].
  - split; [discriminate|]. repeat constructor.
    now apply JsFacts.truthyString_true.
  - destruct (eventPartsMap_Texts _ _ _ Hmap Hdata) as [_ [-> Hne]].
    split; [exact Hne|].
    apply (RulesDataInvariants.texts_nonempty (getFilterName ext)
             (AllowlistFilterId ext) (event selectedEvent) filtersMetadata).
Qed.

(** X8: every part of the request details is rendered at most once, in the
    order of [infoElements]; a rendered part shows at least one text and no
    empty text; and for an event a cookie rule applied to, neither the URL
    nor the element is rendered. *)
Theorem renderedInfo_parts :
  NoDup (map part renderedInfo)
  /\ (exists shown : Part -> bool,
        map part renderedInfo = filter shown (infoElements selectedEvent))
  /\ Forall (fun p => texts p <> [] /\ Forall (fun t => t <> "") (texts p))
       renderedInfo
  /\ (forall rule,
        requestRule (event selectedEvent) = Some rule ->
        cookieRule rule = true ->
        ~ In URL (map part renderedInfo)
        /\ ~ In ELEMENT (map part renderedInfo)).
Proof.
  assert (Hincl : incl (map part renderedInfo) (infoElements selectedEvent)).
  { rewrite renderedInfo_parts_filter. intros id Hid.
    apply filter_In in Hid. apply Hid. }
  split; [|split; [|split]].
  - rewrite renderedInfo_parts_filter. apply NoDup_filter. apply infoElements_NoDup.
  - eexists. apply renderedInfo_parts_filter.
  - apply Forall_forall. intros p Hp. apply renderedInfo_In in Hp.
    apply (rendering_texts (part p)). apply Hp.
  - intros rule Hrule Hcookie.
    split; intros Hin; apply Hincl in Hin; unfold infoElements in Hin;
      rewrite Hrule, Hcookie in Hin; simpl in Hin; intuition discriminate.
Qed.

(** What the part of the assumed rules renders to. *)
Lemma rendering_ASSUMED_RULE :
  rendering ASSUMED_RULE
  = match appliedRuleTexts rulesData with
    | [] => None
    | _ :: _ =>
        Some {| part := ASSUMED_RULE;
                partTitle :=
                  getPlural ext "filtering_modal_assumed_rules"
                    (Z.max (Z.of_nat (List.length (appliedRuleTexts rulesData))) 1);
                texts := appliedRuleTexts rulesData;
                isRequestUrl := false;
                isRule := true;
                isElement := false;
                canCopyToClipboard := true;
                lineCountLimit := LINE_COUNT_LIMIT_RULE ext;
                showMessage := Some "filtering_modal_show_full_rule";
                hideMessage := Some "filtering_modal_hide_full_rule";
                openInNewTab := false;
                assumedRuleNote := true |}
    end.
Proof.
  unfold RequestInfoComponent.rendering, RequestInfoComponent.eventPartsMap,
    RequestInfoComponent.renderPart.
  destruct (appliedRuleTexts rulesData) as [|t rest] eqn:E; simpl.
  - reflexivity.
  - reflexivity.
Qed.

(** The part of the original rules is rendered when there is one. *)
Lemma rendering_ORIGINAL_RULE :
  match originalRuleTexts rulesData with
  | [] => rendering ORIGINAL_RULE = None
  | _ :: _ =>
      exists p,
        rendering ORIGINAL_RULE = Some p
        /\ texts p = [String.concat lineFeed (originalRuleTexts rulesData)]
        /\ partTitle p
           = getPlural ext "filtering_modal_original_rules"
               (Z.of_nat (List.length (originalRuleTexts rulesData)))
  end.
Proof.
  pose proof (proj2 (RulesDataInvariants.texts_nonempty (getFilterName ext)
                       (AllowlistFilterId ext) (event selectedEvent)
                       filtersMetadata)) as Hne.
  unfold RequestInfoComponent.rendering, RequestInfoComponent.eventPartsMap,
    RequestInfoComponent.renderPart.
  fold rulesData in Hne |- *.
  destruct (originalRuleTexts rulesData) as [|t rest] eqn:E.
  - reflexivity.
  - assert (Hjoin : String.concat lineFeed (t :: rest) <> "").
    { apply StealthActionFacts.concat_nonempty; [discriminate|exact Hne]. }
    apply JsFacts.truthyString_true in Hjoin.
    cbn [List.length Z.of_nat]. cbn [Z.ltb Z.compare].
    cbn [data title truthyData]. rewrite Hjoin. cbn [negb].
    eexists. split; [reflexivity|]. split; [reflexivity|].
    cbn [partTitle]. f_equal. lia.
Qed.

(** X9: the part of the assumed rules is rendered exactly when
    [getRulesData] returns an applied text; it then shows exactly the
    applied texts, one by one, marked with the red dot and the note on
    assumed rules, with the copy button, the messages of a rule and the line
    limit of a rule, and without the open-in-new-tab button.  The part of
    the original rules is rendered exactly when [getRulesData] returns an
    original text, and then shows them as one text, joined by line
    feeds. *)
Theorem renderedInfo_rule_parts :
  (In ASSUMED_RULE (map part renderedInfo) <-> appliedRuleTexts rulesData <> [])
  /\ (forall p,
        In p renderedInfo ->
        part p = ASSUMED_RULE ->
        texts p = appliedRuleTexts rulesData
        /\ isRule p = true
        /\ assumedRuleNote p = true
        /\ canCopyToClipboard p = true
        /\ showMessage p = Some "filtering_modal_show_full_rule"
        /\ hideMessage p = Some "filtering_modal_hide_full_rule"
        /\ lineCountLimit p = LINE_COUNT_LIMIT_RULE ext
        /\ openInNewTab p = false)
  /\ (In ORIGINAL_RULE (map part renderedInfo)
      <-> originalRuleTexts rulesData <> [])
  /\ (forall p,
        In p renderedInfo ->
        part p = ORIGINAL_RULE ->
        texts p = [String.concat lineFeed (originalRuleTexts rulesData)]).
Proof.
  assert (Hin : forall id, In id (map part renderedInfo)
                           <-> In id (infoElements selectedEvent)
                               /\ rendering id <> None).
  { intros id. rewrite renderedInfo_parts_filter, filter_In.
    destruct (rendering id); intuition (try discriminate; try congruence). }
  assert (Hboth : In ASSUMED_RULE (infoElements selectedEvent)
                  /\ In ORIGINAL_RULE (infoElements selectedEvent)).
  { unfold infoElements.
    destruct (requestRule (event selectedEvent)) as [rule|];
      [destruct (cookieRule rule)|]; simpl; intuition. }
  split; [|split; [|split]].
  - rewrite Hin, rendering_ASSUMED_RULE.
    destruct (appliedRuleTexts rulesData); intuition (try discriminate; try congruence).
  - intros p Hp Hpart. apply renderedInfo_In in Hp. destruct Hp as [_ Hp].
    rewrite Hpart, rendering_ASSUMED_RULE in Hp.
    destruct (appliedRuleTexts rulesData) as [|t rest]; [discriminate|].
    injection Hp as <-. simpl. repeat split; reflexivity.
  - rewrite Hin. pose proof rendering_ORIGINAL_RULE as H.
    destruct (originalRuleTexts rulesData).
    + rewrite H. intuition (try discriminate; try congruence).
    + destruct H as [p [-> _]]. intuition (try discriminate; try congruence).
  - intros p Hp Hpart. apply renderedInfo_In in Hp. destruct Hp as [_ Hp].
    rewrite Hpart in Hp. pose proof rendering_ORIGINAL_RULE as H.
    destruct (originalRuleTexts rulesData) as [|t rest].
    + rewrite H in Hp. discriminate Hp.
    + destruct H as [q [Hq [Htexts _]]]. rewrite Hq in Hp.
      injection Hp as <-. exact Htexts.
Qed.

(** What the part of the URL renders to. *)
Lemma rendering_URL p :
  rendering URL = Some p ->
  exists url,
    requestUrl selectedEvent = Some url
    /\ url <> ""
    /\ texts p = [url]
    /\ isRequestUrl p = true
    /\ canCopyToClipboard p = true
    /\ showMessage p = Some "filtering_modal_show_full_url"
    /\ openInNewTab p = showOpenInNewTabButton (event selectedEvent).
Proof.
  unfold RequestInfoComponent.rendering, RequestInfoComponent.eventPartsMap,
    RequestInfoComponent.renderPart. cbn [data].
  destruct (requestUrl selectedEvent) as [url|]; [|discriminate].
  cbn [option_map truthyData sameAs].
  destruct (Js.truthyString url) eqn:Hurl; [|discriminate]. cbn [negb].
  rewrite String.eqb_refl. cbn [orb andb fst snd]. intros [= <-].
  exists url. cbn. apply JsFacts.truthyString_true in Hurl.
  repeat split; try reflexivity. exact Hurl.
Qed.

(** X10: the URL of the request, when rendered, comes with the copy button
    and the messages of a URL, and with the open-in-new-tab button exactly
    when none of the element, cookie-name and script markers is set.  The
    open-in-new-tab button is rendered on no part of an event with such a
    marker, and whenever the preview button is rendered the URL comes with
    the open-in-new-tab button. *)
Theorem renderedInfo_open_in_new_tab :
  (forall p,
     In p renderedInfo ->
     part p = URL ->
     Some (texts p) = option_map (fun url => [url]) (requestUrl selectedEvent)
     /\ isRequestUrl p = true
     /\ canCopyToClipboard p = true
     /\ showMessage p = Some "filtering_modal_show_full_url"
     /\ (openInNewTab p = true
         <-> ~ Spec.stringMarkerSet (element (event selectedEvent))
             /\ ~ Spec.stringMarkerSet (cookieName (event selectedEvent))
             /\ ~ Spec.scriptMarkerSet (script (event selectedEvent))))
  /\ (forall p,
        In p renderedInfo ->
        openInNewTab p = true ->
        isRequestUrl p = true
        /\ showOpenInNewTabButton (event selectedEvent) = true)
  /\ (forall addedRuleState p,
        In PREVIEW
          (RequestInfo.renderControlButtons (getStatusMode ext)
             (UserFilterId ext) (AllowlistFilterId ext) addedRuleState
             (event selectedEvent)) ->
        In p renderedInfo ->
        part p = URL ->
        openInNewTab p = true).
Proof.
  assert (Hshow : showOpenInNewTabButton (event selectedEvent) = true
                  <-> ~ Spec.stringMarkerSet (element (event selectedEvent))
                      /\ ~ Spec.stringMarkerSet (cookieName (event selectedEvent))
                      /\ ~ Spec.scriptMarkerSet (script (event selectedEvent))).
  { unfold showOpenInNewTabButton.
    rewrite negb_true_iff, !orb_false_iff.
    rewrite <- !JsFacts.truthyOptString_set, <- JsFacts.truthyOptBool_set.
    rewrite !not_true_iff_false. tauto. }
  split; [|split].
  - intros p Hp Hpart. apply renderedInfo_In in Hp. destruct Hp as [_ Hp].
    rewrite Hpart in Hp.
    destruct (rendering_URL p Hp) as [url [Hurl [_ [-> [-> [-> [-> ->]]]]]]].
    rewrite Hurl.
    split; [reflexivity|split; [reflexivity|split; [reflexivity|]]].
    split; [reflexivity|exact Hshow].
  - intros p Hp Hopen. apply renderedInfo_In in Hp. destruct Hp as [_ Hp].
    revert Hp. unfold RequestInfoComponent.rendering, RequestInfoComponent.renderPart.
    destruct (eventPartsMap (part p)) as [eventPart|]; [|discriminate].
    destruct (data eventPart) as [d|]; [|discriminate].
    destruct (negb (truthyData (Some d))); [discriminate|].
    intros [= Hp]. rewrite <- Hp in Hopen |- *. cbn in Hopen |- *.
    apply andb_true_iff in Hopen. exact Hopen.
  - intros addedRuleState p Hpreview Hp Hpart.
    apply renderedInfo_In in Hp. destruct Hp as [_ Hp]. rewrite Hpart in Hp.
    destruct (rendering_URL p Hp) as [url [_ [_ [_ [_ [_ [_ ->]]]]]]].
    destruct addedRuleState; [|simpl in Hpreview; intuition discriminate..].
    apply ControlButtonFacts.preview_rendered in Hpreview.
    unfold RequestInfo.showPreviewButton in Hpreview.
    rewrite !andb_true_iff, !negb_true_iff in Hpreview.
    unfold showOpenInNewTabButton.
    destruct Hpreview as [[[[_ ->] ->] ->] _]. reflexivity.
Qed.

End Facts.

End InfoPartFacts.

(** ** More on the tab icon *)

Module TabIconFacts.

Import IconsApi.

(** The decimal string of a positive count reads back as the count. *)
Lemma String_read_back n :
  0 < n ->
  option_map Z.of_int (NilZero.int_of_string (String_ n)) = Some n.
Proof.
  intros Hn. unfold String_.
  rewrite NilZero.isi.
  - simpl. f_equal. apply DecimalZ.of_to.
  - destruct n as [|p|p]; try lia. simpl. intros [= H].
    revert H. apply Unsigned.to_uint_nonnil.
  - destruct n as [|p|p]; try lia. discriminate.
Qed.

(** The decimal string of a count up to 99 has at most two digits. *)
Lemma String_two_digits n :
  0 < n <= 99 -> (String.length (String_ n) <= 2)%nat.
Proof.
  intros Hn.
  assert (Hall : forallb
                   (fun k => (String.length (String_ (Z.of_nat k)) <=? 2)%nat)
                   (seq 1 99) = true) by (vm_compute; reflexivity).
  rewrite forallb_forall in Hall.
  specialize (Hall (Z.to_nat n)). rewrite Z2Nat.id in Hall by lia.
  apply Nat.leb_le. apply Hall. apply in_seq. lia.
Qed.

Section Facts.

Variable ImageData : Type.
Variable DisableShowPageStats : bool.
Variable areFilterLimitsExceeded : bool.
Variable getURL : string -> string.
Variable getCurrentNotification : Settled (option Notification).
Variable IS_MV3 : bool.
Variable getIconImageData : Icon -> Settled ImageData.
Variable rejects : Call ImageData -> bool.

Local Abbreviation blocked := (IconsApi.blocked DisableShowPageStats).
Local Abbreviation countBadge := (IconsApi.countBadge DisableShowPageStats).
Local Abbreviation badge := (IconsApi.badge DisableShowPageStats).
Local Abbreviation stateIcon := (IconsApi.stateIcon areFilterLimitsExceeded getURL).
Local Abbreviation icon := (IconsApi.icon areFilterLimitsExceeded getURL).
Local Abbreviation updateTabIcon :=
  (IconsApi.updateTabIcon ImageData DisableShowPageStats areFilterLimitsExceeded getURL
     getCurrentNotification IS_MV3 getIconImageData rejects).
Local Abbreviation callsOf :=
  (IconsApi.callsOf ImageData DisableShowPageStats areFilterLimitsExceeded getURL
     getCurrentNotification IS_MV3 getIconImageData rejects).
Local Abbreviation failure :=
  (@loggerInfo ImageData "Failed to update tab icon:").

(** Nothing thrown inside the [try] leaves it: from the lookup of the
    notification on, [updateTabIcon] returns normally however the promises
    settle. *)
Lemma try_catches tabId frameData calls :
  snd (updateTabIcon tabId frameData calls) = Some tt.
Proof.
  unfold IconsApi.updateTabIcon, tryCatch, bind, await, invoke, log, ret.
  destruct getCurrentNotification as [notification|]; [|reflexivity].
  destruct (getIconImageData _) as [imageData|]; [|reflexivity].
  destruct (rejects (setIcon _ _ _)); [reflexivity|].
  destruct (Js.truthyString _); [|reflexivity].
  destruct (rejects (setBadgeText _ _ _)); [reflexivity|].
  destruct (rejects (setBadgeBackgroundColor _ _ _)); reflexivity.
Qed.

(** The calls of a run that are made on the browser: all but the log. *)
Lemma callsOf_split tabId frameData :
  exists browserCalls logged,
    callsOf tabId frameData = (browserCalls ++ logged)%list
    /\ (logged = [] \/ logged = [failure])
    /\ (forall message, ~ In (loggerInfo message) browserCalls)
    /\ (forall call,
          In call browserCalls ->
          exists notification imageData,
            getCurrentNotification = Fulfilled notification
            /\ getIconImageData (icon notification frameData) = Fulfilled imageData
            /\ let api := if IS_MV3 then action else browserAction in
               (call = setIcon api tabId imageData
                \/ call = setBadgeText api tabId (badge notification frameData)
                \/ call = setBadgeBackgroundColor api tabId
                            (badgeColor notification)))
    /\ (logged = [] ->
        exists notification imageData,
          getCurrentNotification = Fulfilled notification
          /\ getIconImageData (icon notification frameData) = Fulfilled imageData
          /\ forall call, In call browserCalls -> rejects call = false)
    /\ (logged = [failure] ->
        getCurrentNotification = Rejected
        \/ (exists notification,
              getCurrentNotification = Fulfilled notification
              /\ getIconImageData (icon notification frameData) = Rejected)
        \/ exists call,
             last browserCalls failure = call /\ In call browserCalls
             /\ rejects call = true).
Proof.
  unfold IconsApi.callsOf, IconsApi.updateTabIcon,
    tryCatch, bind, await, invoke, log, ret.
  destruct getCurrentNotification as [notification|] eqn:Hn.
  2:{ exists [], [failure]. simpl.
      repeat split; try (now right); try contradiction; try discriminate.
      - intros message Hc; exact Hc.
      - intros _. now left. }
  destruct (getIconImageData (IconsApi.icon _ _ notification frameData))
    as [imageData|] eqn:Hi.
  2:{ exists [], [failure]. simpl.
      repeat split; try (now right); try contradiction; try discriminate.
      - intros message Hc; exact Hc.
      - intros _. right; left. exists notification. split; [reflexivity|exact Hi]. }
  assert (Hcall : forall l call,
             incl l [ setIcon (if IS_MV3 then action else browserAction) tabId
                        imageData;
                      setBadgeText (if IS_MV3 then action else browserAction)
                        tabId (badge notification frameData);
                      setBadgeBackgroundColor
                        (if IS_MV3 then action else browserAction) tabId
                        (badgeColor notification) ] ->
             In call l ->
             exists notification0 imageData0,
               Fulfilled notification = Fulfilled notification0
               /\ getIconImageData (icon notification0 frameData)
                  = Fulfilled imageData0
               /\ (call = setIcon (if IS_MV3 then action else browserAction)
                            tabId imageData0
                   \/ call = setBadgeText (if IS_MV3 then action else browserAction)
                               tabId (badge notification0 frameData)
                   \/ call = setBadgeBackgroundColor
                               (if IS_MV3 then action else browserAction) tabId
                               (badgeColor notification0))).
  { intros l call Hl Hin. exists notification, imageData.
    split; [reflexivity|split; [exact Hi|]].
    apply Hl in Hin. simpl in Hin. intuition (subst; auto). }
  assert (Hnolog : forall l message,
             incl l [ setIcon (if IS_MV3 then action else browserAction) tabId
                        imageData;
                      setBadgeText (if IS_MV3 then action else browserAction)
                        tabId (badge notification frameData);
                      setBadgeBackgroundColor
                        (if IS_MV3 then action else browserAction) tabId
                        (badgeColor notification) ] ->
             ~ In (loggerInfo message) l).
  { intros l message Hl Hin. apply Hl in Hin. simpl in Hin.
    intuition discriminate. }
  simpl.
  destruct (rejects (setIcon _ _ _)) eqn:R1; simpl.
  { eexists [_], [failure]. split; [reflexivity|].
    split; [now right|]. split; [|split; [|split]].
    - intros message. apply Hnolog. intros c Hc; simpl in Hc |- *; tauto.
    - intros call. apply Hcall. intros c Hc; simpl in Hc |- *; tauto.
    - discriminate.
    - intros _. right; right. eexists. split; [reflexivity|].
      split; [now left|exact R1]. }
  destruct (Js.truthyString (IconsApi.badge _ notification frameData)) eqn:Hb;
    simpl.
  2:{ eexists [_], []. split; [reflexivity|].
      split; [now left|]. split; [|split; [|split]].
      - intros message. apply Hnolog. intros c Hc; simpl in Hc |- *; tauto.
      - intros call. apply Hcall. intros c Hc; simpl in Hc |- *; tauto.
      - intros _. exists notification, imageData.
        split; [reflexivity|split; [exact Hi|]].
        intros call Hc; simpl in Hc; destruct Hc as [<- | Hc]; [exact R1|contradiction].
      - discriminate. }
  destruct (rejects (setBadgeText _ _ _)) eqn:R2; simpl.
  { eexists [_; _], [failure]. split; [reflexivity|].
    split; [now right|]. split; [|split; [|split]].
    - intros message. apply Hnolog. intros c Hc; simpl in Hc |- *; tauto.
    - intros call. apply Hcall. intros c Hc; simpl in Hc |- *; tauto.
    - discriminate.
    - intros _. right; right. eexists. split; [reflexivity|].
      split; [right; now left|exact R2]. }
  destruct (rejects (setBadgeBackgroundColor _ _ _)) eqn:R3; simpl.
  { eexists [_; _; _], [failure]. split; [reflexivity|].
    split; [now right|]. split; [|split; [|split]].
    - intros message. apply Hnolog. intros c Hc; simpl in Hc |- *; tauto.
    - intros call. apply Hcall. intros c Hc; simpl in Hc |- *; tauto.
    - discriminate.
    - intros _. right; right. eexists. split; [reflexivity|].
      split; [right; right; now left|exact R3]. }
  eexists [_; _; _], []. split; [reflexivity|].
  split; [now left|]. split; [|split; [|split]].
  - intros message. apply Hnolog. intros c Hc; simpl in Hc |- *; tauto.
  - intros call. apply Hcall. intros c Hc; simpl in Hc |- *; tauto.
  - intros _. exists notification, imageData.
    split; [reflexivity|split; [exact Hi|]].
    intros call Hc; simpl in Hc; destruct Hc as [<- | [<- | [<- | Hc]]]; try assumption; contradiction.
  - discriminate.
Qed.

(** The runs of [updateTabIcon]: the calls made, by how far the run gets. *)
Lemma callsOf_runs tabId frameData :
  (getCurrentNotification = Rejected /\ callsOf tabId frameData = [failure])
  \/ exists notification,
       getCurrentNotification = Fulfilled notification
       /\ ((getIconImageData (icon notification frameData) = Rejected
            /\ callsOf tabId frameData = [failure])
           \/ exists imageData,
                getIconImageData (icon notification frameData)
                = Fulfilled imageData
                /\ let api := if IS_MV3 then action else browserAction in
                   let i := setIcon api tabId imageData in
                   let t := setBadgeText api tabId (badge notification frameData) in
                   let c := setBadgeBackgroundColor api tabId
                              (badgeColor notification) in
                   (rejects i = true /\ callsOf tabId frameData = [i; failure])
                   \/ (rejects i = false
                       /\ badge notification frameData = ""
                       /\ callsOf tabId frameData = [i])
                   \/ (rejects i = false
                       /\ badge notification frameData <> ""
                       /\ ((rejects t = true
                            /\ callsOf tabId frameData = [i; t; failure])
                           \/ (rejects t = false /\ rejects c = true
                               /\ callsOf tabId frameData = [i; t; c; failure])
                           \/ (rejects t = false /\ rejects c = false
                               /\ callsOf tabId frameData = [i; t; c])))).
Proof.
  unfold IconsApi.callsOf, IconsApi.updateTabIcon,
    tryCatch, bind, await, invoke, log, ret.
  destruct getCurrentNotification as [notification|]; [|left; split; reflexivity].
  right. exists notification. split; [reflexivity|].
  destruct (getIconImageData (IconsApi.icon _ _ notification frameData))
    as [imageData|]; [|left; split; reflexivity].
  right. exists imageData. split; [reflexivity|]. cbv zeta. simpl.
  destruct (rejects (setIcon _ _ _)); simpl; [left; split; reflexivity|].
  right.
  destruct (Js.truthyString (IconsApi.badge _ notification frameData)) eqn:Hb;
    simpl.
  2:{ left. apply JsFacts.truthyString_false in Hb.
      split; [reflexivity|split; [exact Hb|reflexivity]]. }
  right. apply JsFacts.truthyString_true in Hb.
  split; [reflexivity|split; [exact Hb|]].
  destruct (rejects (setBadgeText _ _ _)); simpl; [left; split; reflexivity|].
  right.
  destruct (rejects (setBadgeBackgroundColor _ _ _)); simpl;
    [left|right]; repeat split; reflexivity.
Qed.

Ltac runs tabId frameData :=
  let H := fresh "H" in
  pose proof (callsOf_runs tabId frameData) as H; cbv zeta in H;
  destruct H as
    [ [Hn Hcalls]
    | [notification [Hn
        [ [Hi Hcalls]
        | [imageData [Hi
            [ [R1 Hcalls]
            | [ [R1 [Hb Hcalls]]
              | [R1 [Hb
                  [ [R2 Hcalls]
                  | [ [R2 [R3 Hcalls]]
                    | [R2 [R3 Hcalls]] ] ] ] ] ] ] ] ] ] ] ] ].

(** X12: a failure of [updateTabIcon] is logged at most once, and then as
    the last call.  When the lookup of the notification or the image data
    of the icon fails, the log is the only call: the browser is not touched.
    When every promise fulfils, nothing is logged. *)
Theorem updateTabIcon_failure_log tabId frameData :
  (forall message,
     In (loggerInfo message) (callsOf tabId frameData) ->
     exists before,
       callsOf tabId frameData = (before ++ [failure])%list
       /\ forall message', ~ In (loggerInfo message') before)
  /\ (getCurrentNotification = Rejected -> callsOf tabId frameData = [failure])
  /\ (forall notification,
        getCurrentNotification = Fulfilled notification ->
        getIconImageData (icon notification frameData) = Rejected ->
        callsOf tabId frameData = [failure])
  /\ (forall notification imageData,
        getCurrentNotification = Fulfilled notification ->
        getIconImageData (icon notification frameData) = Fulfilled imageData ->
        (forall call, rejects call = false) ->
        forall message, ~ In (loggerInfo message) (callsOf tabId frameData)).
Proof.
  split; [|split; [|split]].
  - intros message Hin. runs tabId frameData; rewrite Hcalls in Hin |- *.
    + exists []. split; [reflexivity|]. intros m H; exact H.
    + exists []. split; [reflexivity|]. intros m H; exact H.
    + eexists [_]. split; [reflexivity|]. intros m H; simpl in H.
      intuition discriminate.
    + simpl in Hin. intuition discriminate.
    + eexists [_; _]. split; [reflexivity|]. intros m H; simpl in H.
      intuition discriminate.
    + eexists [_; _; _]. split; [reflexivity|]. intros m H; simpl in H.
      intuition discriminate.
    + simpl in Hin. intuition discriminate.
  - intros Hrejected. runs tabId frameData; congruence.
  - intros n Hfulfilled Hrejected.
    runs tabId frameData; try congruence.
    all: rewrite Hn in Hfulfilled; injection Hfulfilled as <-; congruence.
  - intros n img Hfulfilled Himage Hrejects message Hin.
    runs tabId frameData; try congruence;
      try (rewrite Hn in Hfulfilled; injection Hfulfilled as <-;
           rewrite ?Hrejects in *; try congruence);
      rewrite Hcalls in Hin; simpl in Hin; intuition discriminate.
Qed.

(** X13: [updateTabIcon] makes at most three calls on the browser, all of
    them on the given tab and on the action API of the build ([browser.action]
    under MV3, [browser.browserAction] otherwise), in this order: [setIcon]
    first, [setBadgeText] only after a [setIcon] that did not fail, and
    [setBadgeBackgroundColor] only after a [setBadgeText] that did not
    fail. *)
Theorem updateTabIcon_call_order tabId frameData :
  let api := if IS_MV3 then action else browserAction in
  (List.length
     (filter (fun call => match call with loggerInfo _ => false | _ => true end)
        (callsOf tabId frameData)) <= 3)%nat
  /\ (forall api' tab imageData,
        In (setIcon api' tab imageData) (callsOf tabId frameData) ->
        api' = api /\ tab = tabId
        /\ exists rest,
             callsOf tabId frameData = setIcon api tabId imageData :: rest)
  /\ (forall api' tab text,
        In (setBadgeText api' tab text) (callsOf tabId frameData) ->
        api' = api /\ tab = tabId
        /\ exists imageData rest,
             callsOf tabId frameData
             = setIcon api tabId imageData :: setBadgeText api tabId text :: rest
             /\ rejects (setIcon api tabId imageData) = false)
  /\ (forall api' tab color,
        In (setBadgeBackgroundColor api' tab color) (callsOf tabId frameData) ->
        api' = api /\ tab = tabId
        /\ exists imageData text rest,
             callsOf tabId frameData
             = setIcon api tabId imageData :: setBadgeText api tabId text
               :: setBadgeBackgroundColor api tabId color :: rest
             /\ rejects (setIcon api tabId imageData) = false
             /\ rejects (setBadgeText api tabId text) = false).
Proof.
  cbv zeta. split; [|split; [|split]].
  - runs tabId frameData; rewrite Hcalls; simpl; lia.
  - intros api' tab img Hin.
    runs tabId frameData; rewrite Hcalls in Hin |- *; simpl in Hin;
      repeat match goal with
             | H : _ \/ _ |- _ => destruct H as [H|H]
             | H : False |- _ => contradiction
             | H : loggerInfo _ = _ |- _ => discriminate H
             | H : setBadgeText _ _ _ = _ |- _ => discriminate H
             | H : setBadgeBackgroundColor _ _ _ = _ |- _ => discriminate H
             | H : setIcon _ _ _ = setIcon _ _ _ |- _ =>
                 injection H as <- <- <-
             end;
      (split; [reflexivity|split; [reflexivity|eexists; reflexivity]]).
  - intros api' tab text Hin.
    runs tabId frameData; rewrite Hcalls in Hin |- *; simpl in Hin;
      repeat match goal with
             | H : _ \/ _ |- _ => destruct H as [H|H]
             | H : False |- _ => contradiction
             | H : loggerInfo _ = _ |- _ => discriminate H
             | H : setIcon _ _ _ = _ |- _ => discriminate H
             | H : setBadgeBackgroundColor _ _ _ = _ |- _ => discriminate H
             | H : setBadgeText _ _ _ = setBadgeText _ _ _ |- _ =>
                 injection H as <- <- <-
             end;
      (split; [reflexivity|split; [reflexivity|]];
       do 2 eexists; split; [reflexivity|exact R1]).
  - intros api' tab color Hin.
    runs tabId frameData; rewrite Hcalls in Hin |- *; simpl in Hin;
      repeat match goal with
             | H : _ \/ _ |- _ => destruct H as [H|H]
             | H : False |- _ => contradiction
             | H : loggerInfo _ = _ |- _ => discriminate H
             | H : setIcon _ _ _ = _ |- _ => discriminate H
             | H : setBadgeText _ _ _ = _ |- _ => discriminate H
             | H : setBadgeBackgroundColor _ _ _
                   = setBadgeBackgroundColor _ _ _ |- _ =>
                 injection H as <- <- <-
             end;
      (split; [reflexivity|split; [reflexivity|]];
       do 3 eexists; split; [reflexivity|split; [exact R1|exact R2]]).
Qed.

(** X14: for a tab that is neither allowlisted nor disabled, with the page
    statistics shown and 1 to 99 blocked requests, the badge absent a
    notification is the decimal string of the blocked count: it reads back
    as that count and has at most two digits, so two such tabs with the same
    badge have the same blocked count. *)
Theorem countBadge_reads_back frameData :
  documentAllowlisted frameData = false ->
  applicationFilteringDisabled frameData = false ->
  DisableShowPageStats = false ->
  0 < totalBlockedTab frameData <= 99 ->
  option_map Z.of_int (NilZero.int_of_string (badge None frameData))
  = Some (totalBlockedTab frameData)
  /\ (String.length (badge None frameData) <= 2)%nat
  /\ (forall other,
        documentAllowlisted other = false ->
        applicationFilteringDisabled other = false ->
        0 < totalBlockedTab other <= 99 ->
        badge None other = badge None frameData ->
        totalBlockedTab other = totalBlockedTab frameData).
Proof.
  intros Hallow Hdisabled Hstats Hcount.
  assert (Hbadge : forall fd,
             documentAllowlisted fd = false ->
             applicationFilteringDisabled fd = false ->
             0 < totalBlockedTab fd <= 99 ->
             badge None fd = String_ (totalBlockedTab fd)).
  { intros fd H1 H2 H3.
    unfold IconsApi.badge, IconsApi.countBadge, IconsApi.blocked, disabled.
    rewrite H1, H2, Hstats; simpl.
    destruct (Z.eqb_spec (totalBlockedTab fd) 0) as [E|_]; [lia|].
    destruct (Z.gtb_spec (totalBlockedTab fd) 99) as [E|_]; [lia|reflexivity]. }
  rewrite (Hbadge frameData Hallow Hdisabled Hcount).
  split; [|split].
  - apply String_read_back. lia.
  - apply String_two_digits. exact Hcount.
  - intros other H1 H2 H3 Hsame.
    rewrite (Hbadge other H1 H2 H3) in Hsame.
    pose proof (String_read_back (totalBlockedTab other) ltac:(lia)) as Ho.
    pose proof (String_read_back (totalBlockedTab frameData) ltac:(lia)) as Hf.
    rewrite Hsame in Ho. congruence.
Qed.

(** X15: a promo notification with a badge text that is not empty puts that
    text on the badge whatever the state of the tab, an allowlisted tab and
    a tab without blocked requests included; the background is the colour of
    the notification, or [#555] when it has none.  When no promise rejects
    the three calls are made with them.  A notification without badge text
    leaves the badge of the blocked count. *)
Theorem notification_badge promo frameData text :
  badgeText promo = Some text ->
  text <> "" ->
  badge (Some promo) frameData = text
  /\ (Js.truthyOptString (badgeBgColor promo) = false ->
      badgeColor (Some promo) = "#555")
  /\ (forall color,
        badgeBgColor promo = Some color -> color <> "" ->
        badgeColor (Some promo) = color)
  /\ (forall tabId image,
        getCurrentNotification = Fulfilled (Some promo) ->
        getIconImageData (icon (Some promo) frameData)
        = Fulfilled image ->
        (forall call, rejects call = false) ->
        let api := if IS_MV3 then action else browserAction in
        callsOf tabId frameData
        = [setIcon api tabId image;
           setBadgeText api tabId text;
           setBadgeBackgroundColor api tabId (badgeColor (Some promo))])
  /\ (forall other,
        Js.truthyOptString (badgeText other) = false ->
        badge (Some other) frameData = badge None frameData).
Proof.
  intros Htext Hne.
  assert (Hbadge : badge (Some promo) frameData = text).
  { unfold IconsApi.badge, orElse. rewrite Htext.
    apply JsFacts.truthyString_true in Hne. rewrite Hne. reflexivity. }
  split; [exact Hbadge|split; [|split; [|split]]].
  - unfold badgeColor, orElse.
    destruct (badgeBgColor promo) as [c|]; simpl; [|reflexivity].
    intros ->. reflexivity.
  - intros color Hcolor Hc. unfold badgeColor, orElse. rewrite Hcolor.
    apply JsFacts.truthyString_true in Hc. rewrite Hc. reflexivity.
  - intros tabId image Hfulfilled Himage Hrejects. cbv zeta.
    runs tabId frameData; try congruence.
    all: rewrite Hfulfilled in Hn; injection Hn as <-.
    all: try congruence.
    all: try (rewrite Hrejects in R1; discriminate R1).
    all: try (rewrite Hrejects in R2; discriminate R2).
    all: try (rewrite Hrejects in R3; discriminate R3).
  - intros other Hother. unfold IconsApi.badge, orElse.
    destruct (badgeText other) as [t|]; simpl in Hother; [|reflexivity].
    rewrite Hother. reflexivity.
Qed.

(** X16: the icon of a promo notification replaces the icon of the state of
    the tab, the warning icon of exceeded filter limits included: its gray
    icon on an allowlisted or disabled tab, its green icon otherwise.  A
    notification that lacks the icon for the state of the tab, even when it
    has the other one, and no notification, leave the icon of the state:
    the warning icon when the filter limits are exceeded, else the off icon
    on an allowlisted or disabled tab, else the on icon. *)
Theorem notification_icon promo frameData :
  (forall notificationIcons gray,
     icons promo = Some notificationIcons ->
     ICON_GRAY notificationIcons = Some gray ->
     disabled frameData = true ->
     icon (Some promo) frameData = gray)
  /\ (forall notificationIcons green,
        icons promo = Some notificationIcons ->
        ICON_GREEN notificationIcons = Some green ->
        disabled frameData = false ->
        icon (Some promo) frameData = green)
  /\ (forall notificationIcons,
        icons promo = Some notificationIcons ->
        ICON_GRAY notificationIcons = None ->
        disabled frameData = true ->
        icon (Some promo) frameData = icon None frameData)
  /\ (forall notificationIcons,
        icons promo = Some notificationIcons ->
        ICON_GREEN notificationIcons = None ->
        disabled frameData = false ->
        icon (Some promo) frameData = icon None frameData)
  /\ (icons promo = None ->
      icon (Some promo) frameData = icon None frameData)
  /\ (areFilterLimitsExceeded = true ->
      icon None frameData
      = [("19", getURL "assets/icons/warning-19.png");
         ("38", getURL "assets/icons/warning-38.png")])
  /\ (areFilterLimitsExceeded = false ->
      icon None frameData
      = if documentAllowlisted frameData || applicationFilteringDisabled frameData
        then [("19", getURL "assets/icons/off-19.png");
              ("38", getURL "assets/icons/off-38.png")]
        else [("19", getURL "assets/icons/on-19.png");
              ("38", getURL "assets/icons/on-38.png")]).
Proof.
  unfold IconsApi.icon, IconsApi.stateIcon, disabled.
  split; [|split; [|split; [|split; [|split; [|split]]]]].
  - intros ni gray -> Hgray ->. destruct ni as [green' gray']; simpl in *.
    rewrite Hgray. reflexivity.
  - intros ni green -> Hgreen ->. destruct ni as [green' gray']; simpl in *.
    rewrite Hgreen. reflexivity.
  - intros ni -> Hgray ->. destruct ni as [green' gray']; simpl in *.
    rewrite Hgray. reflexivity.
  - intros ni -> Hgreen ->. destruct ni as [green' gray']; simpl in *.
    rewrite Hgreen. reflexivity.
  - intros ->. destruct (_ || _); reflexivity.
  - intros ->. reflexivity.
  - intros ->. reflexivity.
Qed.

End Facts.

End TabIconFacts.

(** ** The configuration of the Edge build *)

Module WebpackEdgeFacts.

Import WebpackEdge.

Section Facts.

Variables E P : Type.
Variable genMv2CommonConfig : BrowserConfig -> Configuration E P.
Variable CHROMIUM_DEVTOOLS_ENTRIES : E.
Variable CHROMIUM_DEVTOOLS_PAGES_PLUGINS : list P.
Variable pathJoin : string -> string -> string.
Variable pathResolve : string -> string.
Variable merge : Configuration E P -> Configuration E P -> Configuration E P.

Local Abbreviation edgeConfig :=
  (WebpackEdge.edgeConfig E P CHROMIUM_DEVTOOLS_ENTRIES
     CHROMIUM_DEVTOOLS_PAGES_PLUGINS pathJoin pathResolve).
Local Abbreviation genEdgeConfig :=
  (WebpackEdge.genEdgeConfig E P genMv2CommonConfig CHROMIUM_DEVTOOLS_ENTRIES
     CHROMIUM_DEVTOOLS_PAGES_PLUGINS pathJoin pathResolve merge).

(** X17: [genEdgeConfig] throws, with the message that the output path of
    the common configuration is undefined, exactly when that path is
    missing or the empty string.  Otherwise it returns the common
    configuration merged with a configuration whose output path is the
    common one joined with the build directory of the browser, and whose
    plugins start with the copy plugin that writes the manifest to
    [manifest.json] and the Edge filters to [filters]. *)
Theorem genEdgeConfig_output_path browserConfig :
  match genEdgeConfig browserConfig with
  | inl message =>
      message = "commonConfig.output.path is undefined"
      /\ (outputPath (genMv2CommonConfig browserConfig) = None
          \/ outputPath (genMv2CommonConfig browserConfig) = Some "")
  | inr config =>
      exists commonPath,
        outputPath (genMv2CommonConfig browserConfig) = Some commonPath
        /\ commonPath <> ""
        /\ config
           = merge (genMv2CommonConfig browserConfig)
               (edgeConfig browserConfig commonPath)
        /\ outputPath (edgeConfig browserConfig commonPath)
           = Some (pathJoin commonPath (buildDir browserConfig))
        /\ exists patterns,
             plugins (edgeConfig browserConfig commonPath)
             = CopyWebpackPlugin patterns
               :: map OtherPlugin CHROMIUM_DEVTOOLS_PAGES_PLUGINS
             /\ map to patterns = ["manifest.json"; "filters"]
  end.
Proof.
  unfold WebpackEdge.genEdgeConfig.
  destruct (outputPath (genMv2CommonConfig browserConfig)) as [commonPath|];
    simpl; [|split; [reflexivity|now left]].
  destruct commonPath as [|a commonPath]; simpl.
  - split; [reflexivity|now right].
  - eexists. split; [reflexivity|]. split; [discriminate|].
    split; [reflexivity|]. split; [reflexivity|].
    eexists. split; reflexivity.
Qed.

End Facts.

End WebpackEdgeFacts.

(** ** The further theorems on samples *)

Module OnComponentSamples.

Import ComponentSamples.

(** X4 on the masks of one and of two actions. *)
Lemma stealthActionNamesOf_monotone_witness :
  RequestInfoComponent.stealthActionNamesOf ext 2
  = ["filtering_log_hide_search_queries"]
  /\ RequestInfoComponent.stealthActionNamesOf ext 3
     = ["filtering_log_hide_referrer"; "filtering_log_hide_search_queries"]
  /\ incl (RequestInfoComponent.stealthActionNamesOf ext 2)
       (RequestInfoComponent.stealthActionNamesOf ext 3).
Proof.
  split; [reflexivity|split; [reflexivity|]].
  apply (StealthActionFacts.stealthActionNamesOf_monotone ext 2 3).
  reflexivity.
Defined.

(** X14 on the tab with 7 blocked requests. *)
Lemma countBadge_reads_back_witness :
  option_map Z.of_int
    (NilZero.int_of_string (IconsApi.badge false None Samples.frameData))
  = Some 7.
Proof.
  apply (TabIconFacts.countBadge_reads_back false Samples.frameData);
    try reflexivity.
  simpl; lia.
Defined.

(** X15 on an allowlisted tab while a promo notification is running. *)
Lemma notification_badge_witness :
  IconsApi.badge false (Some promo) allowlistedTab = "!"
  /\ IconsApi.badge false None allowlistedTab = ""
  /\ IconsApi.callsOf IconsApi.Icon false false Samples.getURL
       (IconsApi.Fulfilled (Some promo)) true Samples.getIconImageData
       Samples.rejects 5 allowlistedTab
     = [IconsApi.setIcon IconsApi.action 5
          [("19", "chrome-extension://adguard/assets/icons/off-19.png");
           ("38", "chrome-extension://adguard/assets/icons/off-38.png")];
        IconsApi.setBadgeText IconsApi.action 5 "!";
        IconsApi.setBadgeBackgroundColor IconsApi.action 5 "#555"].
Proof.
  assert (Hne : "!" <> "") by discriminate.
  destruct (TabIconFacts.notification_badge IconsApi.Icon false false
              Samples.getURL (IconsApi.Fulfilled (Some promo)) true
              Samples.getIconImageData Samples.rejects promo allowlistedTab "!"
              eq_refl Hne)
    as [Hbadge [_ [_ [Hcalls _]]]].
  split; [exact Hbadge|split; [reflexivity|]].
  exact (Hcalls 5 _ eq_refl eq_refl (fun _ => eq_refl)).
Defined.

End OnComponentSamples.

(** ** The tab icon, from the reads that precede the [try] *)

Module TabIconEntryFacts.

Import IconsApi.

Section Facts.

Variable ImageData : Type.
Variable readDisableShowPageStats : Settled bool.
Variable readAreFilterLimitsExceeded : Settled bool.
Variable getURL : string -> string.
Variable getCurrentNotification : Settled (option Notification).
Variable IS_MV3 : bool.
Variable getIconImageData : Icon -> Settled ImageData.
Variable rejects : Call ImageData -> bool.

Local Abbreviation updateTabIcon :=
  (IconsApiEntry.updateTabIcon ImageData readDisableShowPageStats
     readAreFilterLimitsExceeded getURL getCurrentNotification IS_MV3
     getIconImageData rejects).
Local Abbreviation fromNotification :=
  (fun disableShowPageStats isWarning =>
     IconsApi.updateTabIcon ImageData disableShowPageStats isWarning getURL
       getCurrentNotification IS_MV3 getIconImageData rejects).

(** X11: [updateTabIcon] throws exactly when one of the two reads that
    precede its [try] throws: the read of the page-statistics setting,
    which is made only for a tab that is neither allowlisted nor disabled,
    or the check of the filter limits.  It then makes no call on the
    browser and logs nothing.  Otherwise it returns normally, however the
    lookup of the notification, the image data and the calls on the browser
    settle, and its calls are those of the body for the values read, the
    setting counting as off for an allowlisted or disabled tab. *)
Theorem updateTabIcon_throws_before_try tabId frameData calls :
  (snd (updateTabIcon tabId frameData calls) = None
   <-> (disabled frameData = false /\ readDisableShowPageStats = Rejected)
       \/ readAreFilterLimitsExceeded = Rejected)
  /\ (snd (updateTabIcon tabId frameData calls) = None ->
      fst (updateTabIcon tabId frameData calls) = calls)
  /\ (disabled frameData = true
      \/ (exists disableShowPageStats,
            readDisableShowPageStats = Fulfilled disableShowPageStats) ->
      (exists isWarning, readAreFilterLimitsExceeded = Fulfilled isWarning) ->
      snd (updateTabIcon tabId frameData calls) = Some tt)
  /\ (forall disableShowPageStats isWarning,
        disabled frameData = false ->
        readDisableShowPageStats = Fulfilled disableShowPageStats ->
        readAreFilterLimitsExceeded = Fulfilled isWarning ->
        updateTabIcon tabId frameData calls
        = fromNotification disableShowPageStats isWarning tabId frameData calls)
  /\ (forall isWarning,
        disabled frameData = true ->
        readAreFilterLimitsExceeded = Fulfilled isWarning ->
        updateTabIcon tabId frameData calls
        = fromNotification false isWarning tabId frameData calls).
Proof.
  assert (Hcaught : forall d w,
             snd (fromNotification d w tabId frameData calls) = Some tt).
  { intros d w. apply TabIconFacts.try_catches. }
  unfold IconsApiEntry.updateTabIcon, bind, await, ret.
  destruct (disabled frameData); simpl;
    [|destruct readDisableShowPageStats as [d|]; simpl];
    destruct readAreFilterLimitsExceeded as [w|]; simpl.
  all: repeat match goal with
         | |- context [IconsApi.updateTabIcon ?I ?d ?w ?g ?n ?m ?i ?r ?t ?f ?c] =>
             let R := fresh "R" in
             let E := fresh "E" in
             pose proof (Hcaught d w) as E; cbv beta in E;
             destruct (IconsApi.updateTabIcon I d w g n m i r t f c)
               as [calls' result] eqn:R;
             simpl in E; subst result
         end; simpl.
  all: split; [|split; [|split; [|split]]];
    try (split; intros H); intros;
    repeat match goal with
           | H : exists _, _ |- _ => destruct H
           end;
    try discriminate; try reflexivity; try tauto; try congruence;
    intuition (try discriminate; try congruence).
  all: repeat match goal with
         | H : exists _, _ |- _ => destruct H
         end; discriminate.
Qed.

End Facts.

End TabIconEntryFacts.

(** ** The reads before the [try], on samples *)

Module OnEntrySamples.

Import ComponentSamples.

(** X11 on a tab with 7 blocked requests when the read of the setting
    throws, and on an allowlisted tab, for which the setting is not read. *)
Lemma updateTabIcon_throws_before_try_witness :
  IconsApiEntry.updateTabIcon IconsApi.Icon IconsApi.Rejected
    (IconsApi.Fulfilled false) Samples.getURL Samples.getCurrentNotification
    true Samples.getIconImageData Samples.rejects 5 Samples.frameData []
  = ([], None)
  /\ snd (IconsApiEntry.updateTabIcon IconsApi.Icon IconsApi.Rejected
            (IconsApi.Fulfilled false) Samples.getURL
            Samples.getCurrentNotification true Samples.getIconImageData
            Samples.rejects 5 allowlistedTab [])
     = Some tt.
Proof.
  pose proof (TabIconEntryFacts.updateTabIcon_throws_before_try IconsApi.Icon
                IconsApi.Rejected (IconsApi.Fulfilled false) Samples.getURL
                Samples.getCurrentNotification true Samples.getIconImageData
                Samples.rejects 5 Samples.frameData [])
    as [Hthrows [Hcalls _]].
  pose proof (TabIconEntryFacts.updateTabIcon_throws_before_try IconsApi.Icon
                IconsApi.Rejected (IconsApi.Fulfilled false) Samples.getURL
                Samples.getCurrentNotification true Samples.getIconImageData
                Samples.rejects 5 allowlistedTab [])
    as [_ [_ [Hreturns _]]].
  split.
  - assert (Hnone : snd (IconsApiEntry.updateTabIcon IconsApi.Icon
                           IconsApi.Rejected (IconsApi.Fulfilled false)
                           Samples.getURL Samples.getCurrentNotification true
                           Samples.getIconImageData Samples.rejects 5
                           Samples.frameData []) = None).
    { apply Hthrows. left. split; reflexivity. }
    specialize (Hcalls Hnone). revert Hnone Hcalls.
    destruct (IconsApiEntry.updateTabIcon _ _ _ _ _ _ _ _ _ _ _) as [c r].
    simpl. intros -> ->. reflexivity.
  - apply Hreturns; [left; reflexivity | exists false; reflexivity].
Defined.

End OnEntrySamples.
